(** * containers-resolver: the [Resolve] pipeline of package [containersResolver]

    A shallow embedding of [pkg/containerResolver/containerScanner.go] and of
    the two earlier revisions of the same file that the repository carries.

    The package is orchestration glue: [Resolve] validates the resolution
    folder, then calls the images extractor, the packages analyzer and the
    persistence helper in sequence, and finally cleans up.  Every function it
    calls outside of the package (the two collaborator interfaces, the
    package-level helpers of [imagesExtractor], [os], [os/exec],
    [path/filepath], [runtime.GOOS], the [zerolog] logger) is a parameter of
    the development: an operation on an abstract world [W] that returns its
    Go results together with the next world.  The embedding threads the world
    through the calls in source order and records every external call, with
    its arguments and the error it returned, in an event trace. *)

From Stdlib Require Import String List Bool NArith.
Import ListNotations.
Open Scope string_scope.

(** ** Go values *)

(** A Go [error]: [None] is [nil], [Some msg] an error whose [Error()] is
    [msg]. *)
Definition error := option string.

(** [zerolog] levels used by the package. *)
Inductive Level := DebugLevel | InfoLevel | WarnLevel | ErrorLevel.

(** Arguments handed to [Msgf]. *)
Inductive FmtArg :=
| ArgString (s : string)
| ArgStrings (l : list string)
| ArgBool (b : bool).

(** The data types of package [types] and [syftPackagesExtractor] that flow
    through [Resolve] untouched, and [types.ToImageModels]. *)
Class Types := {
  FileImages : Type;
  SettingsFiles : Type;
  ImageModel : Type;
  ContainerResolution : Type;
  ToImageModels : list string -> list ImageModel
}.

(** ** Events: the calls that leave the package *)

Inductive Event `{Types} :=
| EvSetGlobalLevel (l : Level)
| EvLog (l : Level) (e : error) (msg : string) (args : list FmtArg)
| EvIsValidFolderPath (folderPath : string) (valid : bool) (e : error)
| EvMkdirAll (path : string) (perm : N) (e : error)
| EvExecRun (name : string) (args : list string) (e : error)
| EvExtractFiles (scanPath : string) (outputPath : string) (e : error)
| EvExtractAndMergeImagesFromFiles
    (files : FileImages) (images : list ImageModel) (settingsFiles : SettingsFiles)
    (e : error)
| EvAnalyzeImages (images : list ImageModel) (e : error)
| EvAnalyzeImagesWithPlatform (images : list ImageModel) (platform : string) (e : error)
| EvSaveObjectToFile (folderPath : string) (obj : list ContainerResolution) (e : error)
| EvDeleteDirectory (path : string) (e : error).

(** ** The outside world *)

(** Package-level functions the file calls: [runtime.GOOS], [filepath.Join],
    [imagesExtractor.IsValidFolderPath], [os.MkdirAll],
    [exec.Command(name, args...).Run()] and [imagesExtractor.DeleteDirectory]. *)
Class Host (W : Type) := {
  GOOS : string;
  filepath_Join : list string -> string;
  IsValidFolderPath : string -> W -> bool * error * W;
  os_MkdirAll : string -> N -> W -> error * W;
  exec_Run : string -> list string -> W -> error * W;
  DeleteDirectory : string -> W -> error * W
}.

(** Interface [imagesExtractor.ImagesExtractor], as far as [Resolve] uses it. *)
Class ImagesExtractor `{Types} (W : Type) := {
  ExtractFiles : string -> W -> FileImages * SettingsFiles * string * error * W;
  ExtractAndMergeImagesFromFiles :
    FileImages -> list ImageModel -> SettingsFiles -> W -> list ImageModel * error * W;
  SaveObjectToFile : string -> list ContainerResolution -> W -> error * W
}.

(** Interface [syftPackagesExtractor.SyftPackagesExtractor]. *)
Class SyftPackagesExtractor `{Types} (W : Type) := {
  AnalyzeImages : list ImageModel -> W -> list ContainerResolution * error * W;
  AnalyzeImagesWithPlatform :
    list ImageModel -> string -> W -> list ContainerResolution * error * W
}.

(** ** The monad: world passing with an event trace *)

Section Monad.
Context `{Types} {W : Type}.

Definition M (A : Type) : Type := W -> A * W * list Event.

Definition ret {A} (a : A) : M A := fun w => (a, w, []).

Definition bind {A B} (m : M A) (k : A -> M B) : M B :=
  fun w =>
    let '(a, w1, t1) := m w in
    let '(b, w2, t2) := k a w1 in
    (b, w2, (t1 ++ t2)%list).

(** An event with no effect on the world (logger calls). *)
Definition emit (ev : Event) : M unit := fun w => (tt, w, [ev]).

(** An external call: run it on the world and record it. *)
Definition call {A} (op : W -> A * W) (ev : A -> Event) : M A :=
  fun w => let '(a, w1) := op w in (a, w1, [ev a]).

Definition result {A} (r : A * W * list Event) : A := fst (fst r).
Definition world_after {A} (r : A * W * list Event) : W := snd (fst r).
Definition trace {A} (r : A * W * list Event) : list Event := snd r.
End Monad.

Declare Scope go_scope.
Delimit Scope go_scope with go.
Notation "x <- m ;; k" := (bind m (fun x => k))
  (at level 61, m at next level, right associativity) : go_scope.
Notation "' p <- m ;; k" := (bind m (fun x => match x with p => k end))
  (at level 61, p pattern, m at next level, right associativity) : go_scope.
Notation "m ;;; k" := (bind m (fun _ => k))
  (at level 61, right associativity) : go_scope.
Open Scope go_scope.

(** ** Logger and wrapped external calls *)

Section Calls.
Context `{Types} {W : Type} `{!Host W} `{!ImagesExtractor W} `{!SyftPackagesExtractor W}.

Definition zerolog_SetGlobalLevel (l : Level) : M (W:=W) unit :=
  emit (EvSetGlobalLevel l).

(** [log.Debug().Msg(msg)] *)
Definition log_Debug_Msg (msg : string) : M (W:=W) unit :=
  emit (EvLog DebugLevel None msg []).

(** [log.Debug().Msgf(format, args...)] *)
Definition log_Debug_Msgf (format : string) (args : list FmtArg) : M (W:=W) unit :=
  emit (EvLog DebugLevel None format args).

(** [log.Err(err).Msg(msg)]: error level when [err] is not nil, info level
    otherwise. *)
Definition log_Err_Msg (err : error) (msg : string) : M (W:=W) unit :=
  emit (EvLog (match err with Some _ => ErrorLevel | None => InfoLevel end) err msg []).

(** [log.Warn().Err(err).Msg(msg)] *)
Definition log_Warn_Err_Msg (err : error) (msg : string) : M (W:=W) unit :=
  emit (EvLog WarnLevel err msg []).

Definition do_IsValidFolderPath (folderPath : string) : M (W:=W) (bool * error) :=
  call (IsValidFolderPath folderPath)
       (fun r => EvIsValidFolderPath folderPath (fst r) (snd r)).

Definition do_MkdirAll (path : string) (perm : N) : M (W:=W) error :=
  call (os_MkdirAll path perm) (EvMkdirAll path perm).

Definition do_exec_Run (name : string) (args : list string) : M (W:=W) error :=
  call (exec_Run name args) (EvExecRun name args).

Definition do_DeleteDirectory (path : string) : M (W:=W) error :=
  call (DeleteDirectory path) (EvDeleteDirectory path).

Definition do_ExtractFiles (scanPath : string)
  : M (W:=W) (FileImages * SettingsFiles * string * error) :=
  call (ExtractFiles scanPath)
       (fun r => EvExtractFiles scanPath (snd (fst r)) (snd r)).

Definition do_ExtractAndMergeImagesFromFiles
    (files : FileImages) (images : list ImageModel) (settingsFiles : SettingsFiles)
  : M (W:=W) (list ImageModel * error) :=
  call (ExtractAndMergeImagesFromFiles files images settingsFiles)
       (fun r => EvExtractAndMergeImagesFromFiles files images settingsFiles (snd r)).

Definition do_AnalyzeImages (images : list ImageModel)
  : M (W:=W) (list ContainerResolution * error) :=
  call (AnalyzeImages images) (fun r => EvAnalyzeImages images (snd r)).

Definition do_AnalyzeImagesWithPlatform (images : list ImageModel) (platform : string)
  : M (W:=W) (list ContainerResolution * error) :=
  call (AnalyzeImagesWithPlatform images platform)
       (fun r => EvAnalyzeImagesWithPlatform images platform (snd r)).

Definition do_SaveObjectToFile (folderPath : string) (obj : list ContainerResolution)
  : M (W:=W) error :=
  call (SaveObjectToFile folderPath obj) (EvSaveObjectToFile folderPath obj).
End Calls.

(** The format string of the first log line of [Resolve]. *)
Definition resolve_params_format : string :=
  "Resolve func parameters: scanPath=%s, resolutionFolderPath=%s, images=%s, isDebug=%t".

(** ** [containerScanner.go], current revision

    [Resolve] analyses for platform ["linux/amd64"], [validate] creates and
    returns [.checkmarx/containers], [cleanup] takes three paths. *)
Module Current.
Section Program.
Context `{Types} {W : Type} `{!Host W} `{!ImagesExtractor W} `{!SyftPackagesExtractor W}.

Definition hideDirectoryOnWindows (dirPath : string) : M (W:=W) error :=
  if negb (GOOS =? "windows") then ret None
  else do_exec_Run "attrib" ["+H"; dirPath].

Definition validate (resolutionFolderPath : string) : M (W:=W) (string * error) :=
  '(isValidFolderPath, err) <- do_IsValidFolderPath resolutionFolderPath ;;
  if match err with Some _ => true | None => false end || Bool.eqb isValidFolderPath false
  then ret ("", err)
  else
    let checkmarxFolderPath := filepath_Join [resolutionFolderPath; ".checkmarx"] in
    let checkmarxPath := filepath_Join [checkmarxFolderPath; "containers"] in
    err <- do_MkdirAll checkmarxPath 493 (* 0755 *) ;;
    match err with
    | Some _ => ret ("", err)
    | None =>
        (if GOOS =? "windows"
         then
           err <- hideDirectoryOnWindows checkmarxFolderPath ;;
           match err with
           | Some _ => log_Warn_Err_Msg err "Could not hide .checkmarx folder on Windows"
           | None => ret tt
           end
         else ret tt) ;;;
        ret (checkmarxPath, None)
    end.

Definition cleanup (originalPath outputPath checkmarxPath : string) : M (W:=W) error :=
  err <- (if negb (outputPath =? "") && negb (outputPath =? originalPath)
          then
            err <- do_DeleteDirectory outputPath ;;
            match err with
            | Some _ => log_Warn_Err_Msg err "Could not delete output directory" ;;; ret err
            | None => ret err
            end
          else ret None) ;;
  (if negb (checkmarxPath =? "")
   then
     cxErr <- do_DeleteDirectory checkmarxPath ;;
     match cxErr with
     | Some _ =>
         log_Warn_Err_Msg cxErr
           "Could not delete containers directory inside .checkmarx folder"
     | None => ret tt
     end
   else ret tt) ;;;
  ret err.

Definition Resolve (scanPath resolutionFolderPath : string) (images : list string)
    (isDebug : bool) : M (W:=W) error :=
  (if isDebug then zerolog_SetGlobalLevel DebugLevel
   else zerolog_SetGlobalLevel InfoLevel) ;;;
  log_Debug_Msgf resolve_params_format
    [ArgString scanPath; ArgString resolutionFolderPath; ArgStrings images; ArgBool isDebug] ;;;
  '(checkmarxPath, err) <- validate resolutionFolderPath ;;
  match err with
  | Some _ =>
      log_Err_Msg err "Resolution Path is not valid or could not create .checkmarx folder." ;;;
      ret err
  | None =>
  log_Debug_Msg "Call ExtractFiles..." ;;;
  '(filesWithImages, settingsFiles, outputPath, err) <- do_ExtractFiles scanPath ;;
  match err with
  | Some _ => log_Err_Msg err "Could not extract files." ;;; ret err
  | None =>
  '(imagesToAnalyze, err) <-
    do_ExtractAndMergeImagesFromFiles filesWithImages (ToImageModels images) settingsFiles ;;
  match err with
  | Some _ => log_Err_Msg err "Could not extract images from files." ;;; ret err
  | None =>
  '(resolutionResult, err) <- do_AnalyzeImagesWithPlatform imagesToAnalyze "linux/amd64" ;;
  match err with
  | Some _ => log_Err_Msg err "Could not analyze images." ;;; ret err
  | None =>
  err <- do_SaveObjectToFile checkmarxPath resolutionResult ;;
  match err with
  | Some _ => log_Err_Msg err "Could not save resolution result." ;;; ret err
  | None =>
  err <- cleanup resolutionFolderPath outputPath checkmarxPath ;;
  match err with
  | Some _ => log_Err_Msg err "Could not cleanup resources." ;;; ret err
  | None => ret None
  end end end end end end.
End Program.
End Current.

(** ** [containerScanner.go], previous revision (second half of the file)

    [Resolve] calls [AnalyzeImages], [validate] joins the three path elements
    in one call, [cleanup] deletes both directories under one guard and
    returns either deletion's error. *)
Module Previous.
Section Program.
Context `{Types} {W : Type} `{!Host W} `{!ImagesExtractor W} `{!SyftPackagesExtractor W}.

Definition validate (resolutionFolderPath : string) : M (W:=W) (string * error) :=
  '(isValidFolderPath, err) <- do_IsValidFolderPath resolutionFolderPath ;;
  if match err with Some _ => true | None => false end || Bool.eqb isValidFolderPath false
  then ret ("", err)
  else
    let checkmarxPath :=
      filepath_Join [resolutionFolderPath; ".checkmarx"; "containers"] in
    err <- do_MkdirAll checkmarxPath 493 (* 0755 *) ;;
    match err with
    | Some _ => ret ("", err)
    | None => ret (checkmarxPath, None)
    end.

Definition cleanup (originalPath outputPath checkmarxPath : string) : M (W:=W) error :=
  if negb (outputPath =? "") && negb (outputPath =? originalPath)
     && negb (checkmarxPath =? "")
  then
    err <- do_DeleteDirectory outputPath ;;
    cxErr <- do_DeleteDirectory checkmarxPath ;;
    match err with
    | Some _ => ret err
    | None =>
        match cxErr with
        | Some _ => ret cxErr
        | None => ret None
        end
    end
  else ret None.

Definition Resolve (scanPath resolutionFolderPath : string) (images : list string)
    (isDebug : bool) : M (W:=W) error :=
  (if isDebug then zerolog_SetGlobalLevel DebugLevel
   else zerolog_SetGlobalLevel InfoLevel) ;;;
  log_Debug_Msgf resolve_params_format
    [ArgString scanPath; ArgString resolutionFolderPath; ArgStrings images; ArgBool isDebug] ;;;
  '(checkmarxPath, err) <- validate resolutionFolderPath ;;
  match err with
  | Some _ =>
      log_Err_Msg err "Resolution Path is not valid or could not create .checkmarx folder." ;;;
      ret err
  | None =>
  log_Debug_Msg "Call ExtractFiles..." ;;;
  '(filesWithImages, settingsFiles, outputPath, err) <- do_ExtractFiles scanPath ;;
  match err with
  | Some _ => log_Err_Msg err "Could not extract files." ;;; ret err
  | None =>
  '(imagesToAnalyze, err) <-
    do_ExtractAndMergeImagesFromFiles filesWithImages (ToImageModels images) settingsFiles ;;
  match err with
  | Some _ => log_Err_Msg err "Could not extract images from files." ;;; ret err
  | None =>
  '(resolutionResult, err) <- do_AnalyzeImages imagesToAnalyze ;;
  match err with
  | Some _ => log_Err_Msg err "Could not analyze images." ;;; ret err
  | None =>
  err <- do_SaveObjectToFile checkmarxPath resolutionResult ;;
  match err with
  | Some _ => log_Err_Msg err "Could not save resolution result." ;;; ret err
  | None =>
  err <- cleanup resolutionFolderPath outputPath checkmarxPath ;;
  match err with
  | Some _ => log_Err_Msg err "Could not cleanup resources." ;;; ret err
  | None => ret None
  end end end end end end.
End Program.
End Previous.

(** ** The simple revision (no results subdirectory)

    [validate] returns only an error, [Resolve] saves into the resolution
    folder itself and never touches the logger level, [cleanup] takes two
    paths and returns the deletion's error. *)
Module Simple.
Section Program.
Context `{Types} {W : Type} `{!Host W} `{!ImagesExtractor W} `{!SyftPackagesExtractor W}.

Definition validate (resolutionFolderPath : string) : M (W:=W) error :=
  '(isValidFolderPath, err) <- do_IsValidFolderPath resolutionFolderPath ;;
  if match err with Some _ => true | None => false end || Bool.eqb isValidFolderPath false
  then ret err
  else ret None.

Definition cleanup (originalPath outputPath : string) : M (W:=W) error :=
  if negb (outputPath =? "") && negb (outputPath =? originalPath)
  then
    err <- do_DeleteDirectory outputPath ;;
    match err with
    | Some _ => ret err
    | None => ret None
    end
  else ret None.

Definition Resolve (scanPath resolutionFolderPath : string) (images : list string)
    (isDebug : bool) : M (W:=W) error :=
  log_Debug_Msgf resolve_params_format
    [ArgString scanPath; ArgString resolutionFolderPath; ArgStrings images; ArgBool isDebug] ;;;
  err <- validate resolutionFolderPath ;;
  match err with
  | Some _ => log_Err_Msg err "Resolution Path is not valid." ;;; ret err
  | None =>
  log_Debug_Msg "Call ExtractFiles..." ;;;
  '(filesWithImages, settingsFiles, outputPath, err) <- do_ExtractFiles scanPath ;;
  match err with
  | Some _ => log_Err_Msg err "Could not extract files." ;;; ret err
  | None =>
  '(imagesToAnalyze, err) <-
    do_ExtractAndMergeImagesFromFiles filesWithImages (ToImageModels images) settingsFiles ;;
  match err with
  | Some _ => log_Err_Msg err "Could not extract images from files." ;;; ret err
  | None =>
  '(resolutionResult, err) <- do_AnalyzeImages imagesToAnalyze ;;
  match err with
  | Some _ => log_Err_Msg err "Could not analyze images." ;;; ret err
  | None =>
  err <- do_SaveObjectToFile resolutionFolderPath resolutionResult ;;
  match err with
  | Some _ => log_Err_Msg err "Could not save resolution result." ;;; ret err
  | None =>
  err <- cleanup resolutionFolderPath outputPath ;;
  match err with
  | Some _ => log_Err_Msg err "Could not cleanup resources." ;;; ret err
  | None => ret None
  end end end end end end.
End Program.
End Simple.

(** ** Reading a trace *)

Section TracePredicates.
Context `{Types}.

Definition is_ExtractFiles (ev : Event) : bool :=
  match ev with EvExtractFiles _ _ _ => true | _ => false end.
Definition is_Merge (ev : Event) : bool :=
  match ev with EvExtractAndMergeImagesFromFiles _ _ _ _ => true | _ => false end.
Definition is_Analyze (ev : Event) : bool :=
  match ev with
  | EvAnalyzeImages _ _ | EvAnalyzeImagesWithPlatform _ _ _ => true
  | _ => false
  end.
Definition is_Save (ev : Event) : bool :=
  match ev with EvSaveObjectToFile _ _ _ => true | _ => false end.
Definition is_Delete (ev : Event) : bool :=
  match ev with EvDeleteDirectory _ _ => true | _ => false end.

(** A call on one of the two collaborator interfaces. *)
Definition is_collaborator_call (ev : Event) : bool :=
  is_ExtractFiles ev || is_Merge ev || is_Analyze ev || is_Save ev.

(** The error a call returned ([None] for logger events). *)
Definition returned_error (ev : Event) : error :=
  match ev with
  | EvSetGlobalLevel _ | EvLog _ _ _ _ => None
  | EvIsValidFolderPath _ _ e | EvMkdirAll _ _ e | EvExecRun _ _ e
  | EvExtractFiles _ _ e | EvExtractAndMergeImagesFromFiles _ _ _ e
  | EvAnalyzeImages _ e | EvAnalyzeImagesWithPlatform _ _ e
  | EvSaveObjectToFile _ _ e | EvDeleteDirectory _ e => e
  end.

Definition succeeded (ev : Event) : bool :=
  match returned_error ev with None => true | Some _ => false end.

(** Some event of the kind [kind] occurs in the trace. *)
Definition called (kind : Event -> bool) (tr : list Event) : bool :=
  existsb kind tr.

(** Some call of the kind [kind] occurs and returned a nil error. *)
Definition called_ok (kind : Event -> bool) (tr : list Event) : bool :=
  existsb (fun ev => kind ev && succeeded ev) tr.

(** File extraction, image merge, image analysis and persistence were all
    called and all returned a nil error. *)
Definition all_four_succeeded (tr : list Event) : bool :=
  called_ok is_ExtractFiles tr && called_ok is_Merge tr
  && called_ok is_Analyze tr && called_ok is_Save tr.

(** The warning [Current.cleanup] logs when deleting the extractor's output
    directory fails. *)
Definition is_output_deletion_warning (ev : Event) : bool :=
  match ev with
  | EvLog WarnLevel (Some _) msg _ => msg =? "Could not delete output directory"
  | _ => false
  end.
End TracePredicates.

(** Path of the results subdirectory as each revision computes it. *)
Definition checkmarxPath_current {W} `{!Host W} (resolutionFolderPath : string) : string :=
  filepath_Join [filepath_Join [resolutionFolderPath; ".checkmarx"]; "containers"].
Definition checkmarxPath_previous {W} `{!Host W} (resolutionFolderPath : string) : string :=
  filepath_Join [resolutionFolderPath; ".checkmarx"; "containers"].

(** The guard of the output-directory deletion in [cleanup]. *)
Definition deletes_output (originalPath outputPath : string) : bool :=
  negb (outputPath =? "") && negb (outputPath =? originalPath).

(** ** The stages of a run

    The three revisions of [Resolve] share the steps that follow validation:
    extract, merge, analyse, save, clean up, each one an exit point.
    [PipelineRun] lists the exits with the trace each one leaves; the
    revisions differ in the analyzer method, the folder handed to
    [SaveObjectToFile] and the cleanup function, which are its parameters. *)

Section Stages.
Context `{Types} {W : Type} `{!Host W} `{!ImagesExtractor W} `{!SyftPackagesExtractor W}.

(** Events [validate] can leave. *)
Definition is_validation_event (ev : Event) : bool :=
  match ev with
  | EvIsValidFolderPath _ _ _ | EvMkdirAll _ _ _ | EvExecRun _ _ _ => true
  | EvLog WarnLevel _ msg _ => msg =? "Could not hide .checkmarx folder on Windows"
  | _ => false
  end.

(** Events [Resolve] can leave up to the end of validation. *)
Definition is_preamble_event (ev : Event) : bool :=
  match ev with
  | EvSetGlobalLevel _ | EvLog DebugLevel _ _ _ => true
  | _ => is_validation_event ev
  end.

(** Events [cleanup] can leave. *)
Definition is_cleanup_event (ev : Event) : bool :=
  match ev with
  | EvDeleteDirectory _ _ => true
  | EvLog WarnLevel (Some _) msg _ =>
      (msg =? "Could not delete output directory")
      || (msg =? "Could not delete containers directory inside .checkmarx folder")
  | _ => false
  end.

(** The first log line of [Resolve]. *)
Definition params_log (scanPath resolutionFolderPath : string) (images : list string)
    (isDebug : bool) : Event :=
  EvLog DebugLevel None resolve_params_format
    [ArgString scanPath; ArgString resolutionFolderPath; ArgStrings images; ArgBool isDebug].

(** The two logger calls the current and the previous revision start with. *)
Definition header (scanPath resolutionFolderPath : string) (images : list string)
    (isDebug : bool) : list Event :=
  [EvSetGlobalLevel (if isDebug then DebugLevel else InfoLevel);
   params_log scanPath resolutionFolderPath images isDebug].

Definition error_log (e : string) (msg : string) : Event :=
  EvLog ErrorLevel (Some e) msg [].

(** The analyzer method a revision calls ([AnalyzeImagesWithPlatform] with a
    platform, [AnalyzeImages] without), and the event that records it. *)
Definition analysis (platform : option string) (imgs : list ImageModel)
  : W -> list ContainerResolution * error * W :=
  match platform with
  | Some pl => AnalyzeImagesWithPlatform imgs pl
  | None => AnalyzeImages imgs
  end.

Definition EvAnalysis (platform : option string) (imgs : list ImageModel) (e : error)
  : Event :=
  match platform with
  | Some pl => EvAnalyzeImagesWithPlatform imgs pl e
  | None => EvAnalyzeImages imgs e
  end.

Variable scanPath : string.
Variable images : list string.

(** [PipelineRun platform saveFolder cleanupM w1 r w' tr]: from world [w1],
    the steps after validation return [r] in world [w'] and leave [tr];
    [saveFolder] is the folder handed to [SaveObjectToFile] and [cleanupM]
    the cleanup step, given the extractor's output path. *)
Inductive PipelineRun (platform : option string) (saveFolder : string)
    (cleanupM : string -> M (W:=W) error) (w1 : W) : error -> W -> list Event -> Prop :=
| ExtractFails files settings out e w2 :
    ExtractFiles scanPath w1 = (files, settings, out, Some e, w2) ->
    PipelineRun platform saveFolder cleanupM w1 (Some e) w2
      [EvLog DebugLevel None "Call ExtractFiles..." [];
       EvExtractFiles scanPath out (Some e);
       error_log e "Could not extract files."]
| MergeFails files settings out w2 merged e w3 :
    ExtractFiles scanPath w1 = (files, settings, out, None, w2) ->
    ExtractAndMergeImagesFromFiles files (ToImageModels images) settings w2
      = (merged, Some e, w3) ->
    PipelineRun platform saveFolder cleanupM w1 (Some e) w3
      [EvLog DebugLevel None "Call ExtractFiles..." [];
       EvExtractFiles scanPath out None;
       EvExtractAndMergeImagesFromFiles files (ToImageModels images) settings (Some e);
       error_log e "Could not extract images from files."]
| AnalysisFails files settings out w2 merged w3 res e w4 :
    ExtractFiles scanPath w1 = (files, settings, out, None, w2) ->
    ExtractAndMergeImagesFromFiles files (ToImageModels images) settings w2
      = (merged, None, w3) ->
    analysis platform merged w3 = (res, Some e, w4) ->
    PipelineRun platform saveFolder cleanupM w1 (Some e) w4
      [EvLog DebugLevel None "Call ExtractFiles..." [];
       EvExtractFiles scanPath out None;
       EvExtractAndMergeImagesFromFiles files (ToImageModels images) settings None;
       EvAnalysis platform merged (Some e);
       error_log e "Could not analyze images."]
| SaveFails files settings out w2 merged w3 res w4 e w5 :
    ExtractFiles scanPath w1 = (files, settings, out, None, w2) ->
    ExtractAndMergeImagesFromFiles files (ToImageModels images) settings w2
      = (merged, None, w3) ->
    analysis platform merged w3 = (res, None, w4) ->
    SaveObjectToFile saveFolder res w4 = (Some e, w5) ->
    PipelineRun platform saveFolder cleanupM w1 (Some e) w5
      [EvLog DebugLevel None "Call ExtractFiles..." [];
       EvExtractFiles scanPath out None;
       EvExtractAndMergeImagesFromFiles files (ToImageModels images) settings None;
       EvAnalysis platform merged None;
       EvSaveObjectToFile saveFolder res (Some e);
       error_log e "Could not save resolution result."]
| CleanedUp files settings out w2 merged w3 res w4 w5 ce w6 ctr :
    ExtractFiles scanPath w1 = (files, settings, out, None, w2) ->
    ExtractAndMergeImagesFromFiles files (ToImageModels images) settings w2
      = (merged, None, w3) ->
    analysis platform merged w3 = (res, None, w4) ->
    SaveObjectToFile saveFolder res w4 = (None, w5) ->
    cleanupM out w5 = (ce, w6, ctr) ->
    PipelineRun platform saveFolder cleanupM w1 ce w6
      ([EvLog DebugLevel None "Call ExtractFiles..." [];
        EvExtractFiles scanPath out None;
        EvExtractAndMergeImagesFromFiles files (ToImageModels images) settings None;
        EvAnalysis platform merged None;
        EvSaveObjectToFile saveFolder res None]
       ++ ctr
       ++ match ce with
          | Some e => [error_log e "Could not cleanup resources."]
          | None => []
          end)%list.

(** [ResolveRun r tr]: a whole run of [Resolve], in any revision: a
    preamble (logger set-up and validation), then either the validation
    error or the pipeline. *)
Inductive ResolveRun : error -> list Event -> Prop :=
| ValidationFails pre e msg :
    forallb is_preamble_event pre = true ->
    ResolveRun (Some e) (pre ++ [error_log e msg])%list
| Validated pre platform saveFolder cleanupM w1 r w' ptr :
    forallb is_preamble_event pre = true ->
    (forall out w, forallb is_cleanup_event (trace (cleanupM out w)) = true) ->
    PipelineRun platform saveFolder cleanupM w1 r w' ptr ->
    ResolveRun r (pre ++ ptr)%list.
End Stages.

(** ** The three revisions side by side *)

Inductive Revision := CurrentRevision | PreviousRevision | SimpleRevision.

Section Revisions.
Context `{Types} {W : Type} `{!Host W} `{!ImagesExtractor W} `{!SyftPackagesExtractor W}.

Definition Resolve_of (rev : Revision)
  : string -> string -> list string -> bool -> M (W:=W) error :=
  match rev with
  | CurrentRevision => Current.Resolve
  | PreviousRevision => Previous.Resolve
  | SimpleRevision => Simple.Resolve
  end.

(** [cleanup] of each revision; the simple one takes no results path. *)
Definition cleanup_of (rev : Revision) (originalPath outputPath checkmarxPath : string)
  : M (W:=W) error :=
  match rev with
  | CurrentRevision => Current.cleanup originalPath outputPath checkmarxPath
  | PreviousRevision => Previous.cleanup originalPath outputPath checkmarxPath
  | SimpleRevision => Simple.cleanup originalPath outputPath
  end.
End Revisions.

(** ** A test double of the outside world

    In the manner of the mocks of [containerScanner_test.go]: the collaborator
    methods return what the world record scripts for them, and the file system
    is a list of directories and of regular files.  Used only to run the
    program on concrete inputs. *)
Module Mock.
#[local] Instance types : Types := {|
  FileImages := list string;
  SettingsFiles := list (string * string);
  ImageModel := string;
  ContainerResolution := string;
  ToImageModels := fun images => images
|}.

Record World := {
  dirs : list string;            (* existing directories *)
  regular_files : list string;   (* existing paths that are not directories *)
  uncreatable : list string;     (* directories MkdirAll cannot create *)
  undeletable : list string;     (* directories DeleteDirectory cannot delete *)
  on_ExtractFiles : FileImages * SettingsFiles * string * error;
  on_ExtractAndMerge : list ImageModel * error;
  on_Analyze : list ContainerResolution * error;
  on_Save : error
}.

Definition mem (p : string) (l : list string) : bool := existsb (String.eqb p) l.

Definition with_dirs (w : World) (d : list string) : World :=
  {| dirs := d; regular_files := regular_files w; uncreatable := uncreatable w;
     undeletable := undeletable w; on_ExtractFiles := on_ExtractFiles w;
     on_ExtractAndMerge := on_ExtractAndMerge w; on_Analyze := on_Analyze w;
     on_Save := on_Save w |}.

(** Joins the non-empty elements with a slash (no normalisation). *)
Definition join (elems : list string) : string :=
  String.concat "/" (filter (fun e => negb (e =? "")) elems).

#[local] Instance host : Host World := {|
  GOOS := "linux";
  filepath_Join := join;
  IsValidFolderPath := fun p w =>
    if mem p (dirs w) then (true, None, w)
    else if mem p (regular_files w) then (false, None, w)
    else (false, Some ("stat " ++ p ++ ": no such file or directory"), w);
  os_MkdirAll := fun p _ w =>
    if mem p (uncreatable w) then (Some ("mkdir " ++ p ++ ": permission denied"), w)
    else (None, with_dirs w (if mem p (dirs w) then dirs w else p :: dirs w));
  exec_Run := fun _ _ w => (None, w);
  DeleteDirectory := fun p w =>
    if mem p (undeletable w) then (Some ("unlinkat " ++ p ++ ": permission denied"), w)
    else (None, with_dirs w (filter (fun d => negb (d =? p)) (dirs w)))
|}.

#[local] Instance imagesExtractor : ImagesExtractor World := {|
  ExtractFiles := fun _ w => (on_ExtractFiles w, w);
  ExtractAndMergeImagesFromFiles := fun _ _ _ w => (on_ExtractAndMerge w, w);
  SaveObjectToFile := fun _ _ w => (on_Save w, w)
|}.

#[local] Instance syftPackagesExtractor : SyftPackagesExtractor World := {|
  AnalyzeImages := fun _ w => (on_Analyze w, w);
  AnalyzeImagesWithPlatform := fun _ _ w => (on_Analyze w, w)
|}.

(** The fixtures of [TestResolve]. *)
Definition scanPath : string := "../../test_files".
Definition resolutionFolderPath : string := "../../test_files/resolution".
Definition checkmarxPath : string := "../../test_files/resolution/.checkmarx/containers".
Definition images : list string := ["image1"; "image2"].
Definition sampleFileImages : FileImages :=
  ["absolute/path/to/Dockerfile1"; "absolute/path/to/Dockerfile2";
   "absolute/path/to/docker-compose.yml"; "absolute/path/to/helm/chart"].
Definition sampleSettings : SettingsFiles := [("key", "value")].
Definition expectedResolution : list ContainerResolution := ["image1:blabla"].
Definition mergedImages : list ImageModel := ["image1"].

(** The world of the success scenario: every collaborator succeeds. *)
Definition success : World := {|
  dirs := [resolutionFolderPath; "/output/path"];
  regular_files := ["../../test_files/resolution.json"];
  uncreatable := [];
  undeletable := [];
  on_ExtractFiles := (sampleFileImages, sampleSettings, "/output/path", None);
  on_ExtractAndMerge := (mergedImages, None);
  on_Analyze := (expectedResolution, None);
  on_Save := None
|}.

Definition with_on_ExtractFiles (w : World) r : World :=
  {| dirs := dirs w; regular_files := regular_files w; uncreatable := uncreatable w;
     undeletable := undeletable w; on_ExtractFiles := r;
     on_ExtractAndMerge := on_ExtractAndMerge w; on_Analyze := on_Analyze w;
     on_Save := on_Save w |}.
Definition with_on_Analyze (w : World) r : World :=
  {| dirs := dirs w; regular_files := regular_files w; uncreatable := uncreatable w;
     undeletable := undeletable w; on_ExtractFiles := on_ExtractFiles w;
     on_ExtractAndMerge := on_ExtractAndMerge w; on_Analyze := r;
     on_Save := on_Save w |}.
Definition with_on_Save (w : World) r : World :=
  {| dirs := dirs w; regular_files := regular_files w; uncreatable := uncreatable w;
     undeletable := undeletable w; on_ExtractFiles := on_ExtractFiles w;
     on_ExtractAndMerge := on_ExtractAndMerge w; on_Analyze := on_Analyze w;
     on_Save := r |}.
Definition with_undeletable (w : World) l : World :=
  {| dirs := dirs w; regular_files := regular_files w; uncreatable := uncreatable w;
     undeletable := l; on_ExtractFiles := on_ExtractFiles w;
     on_ExtractAndMerge := on_ExtractAndMerge w; on_Analyze := on_Analyze w;
     on_Save := on_Save w |}.

(** [ExtractFiles] fails with ["invalid path"], as in the test. *)
Definition extract_fails : World :=
  with_on_ExtractFiles success
    (sampleFileImages, sampleSettings, "/output/path", Some "invalid path").
(** The analyzer fails with ["error analyzing images"], as in the test. *)
Definition analyze_fails : World :=
  with_on_Analyze success (expectedResolution, Some "error analyzing images").
Definition save_fails : World := with_on_Save success (Some "disk full").
(** The extractor's output directory cannot be deleted. *)
Definition output_locked : World := with_undeletable success ["/output/path"].
(** The results subdirectory cannot be deleted. *)
Definition results_locked : World := with_undeletable success [checkmarxPath].
Definition both_locked : World :=
  with_undeletable success ["/output/path"; checkmarxPath].

(** [Resolve], [validate] and [cleanup] on this world. *)
Definition Resolve (rev : Revision) := Resolve_of (W:=World) rev.
Definition validate := Current.validate (W:=World).
Definition cleanup (rev : Revision) := cleanup_of (W:=World) rev.

(** [Resolve] on the test's scan path and images, debug off. *)
Definition run (rev : Revision) (resolutionFolderPath : string) (w : World) :=
  Resolve rev scanPath resolutionFolderPath images false w.
End Mock.

(** More scripted worlds: a failing merge, a results subdirectory that cannot
    be created, an extractor that worked in place. *)
Module MockMerge.
Definition with_on_ExtractAndMerge (w : Mock.World) r : Mock.World :=
  {| Mock.dirs := Mock.dirs w; Mock.regular_files := Mock.regular_files w;
     Mock.uncreatable := Mock.uncreatable w; Mock.undeletable := Mock.undeletable w;
     Mock.on_ExtractFiles := Mock.on_ExtractFiles w; Mock.on_ExtractAndMerge := r;
     Mock.on_Analyze := Mock.on_Analyze w; Mock.on_Save := Mock.on_Save w |}.

Definition with_uncreatable (w : Mock.World) l : Mock.World :=
  {| Mock.dirs := Mock.dirs w; Mock.regular_files := Mock.regular_files w;
     Mock.uncreatable := l; Mock.undeletable := Mock.undeletable w;
     Mock.on_ExtractFiles := Mock.on_ExtractFiles w;
     Mock.on_ExtractAndMerge := Mock.on_ExtractAndMerge w;
     Mock.on_Analyze := Mock.on_Analyze w; Mock.on_Save := Mock.on_Save w |}.

Definition merge_fails : Mock.World :=
  with_on_ExtractAndMerge Mock.success (Mock.mergedImages, Some "bad image reference").

(** The results subdirectory cannot be created. *)
Definition mkdir_fails : Mock.World :=
  with_uncreatable Mock.success [Mock.checkmarxPath].

(** The extractor worked in place: its output path is the resolution folder. *)
Definition in_place : Mock.World :=
  Mock.with_on_ExtractFiles Mock.success
    (Mock.sampleFileImages, Mock.sampleSettings, Mock.resolutionFolderPath, None).
End MockMerge.

(** A Windows host over the same world: paths are joined with a backslash and
    [attrib] fails or not as [attrib_fails] says. *)
Module MockWindows.
Definition separator : string := String (Ascii.ascii_of_nat 92) "".

Definition join (elems : list string) : string :=
  String.concat separator (filter (fun e => negb (e =? "")) elems).

Definition host (attrib_fails : bool) : Host Mock.World := {|
  GOOS := "windows";
  filepath_Join := join;
  IsValidFolderPath := IsValidFolderPath (Host:=Mock.host);
  os_MkdirAll := os_MkdirAll (Host:=Mock.host);
  exec_Run := fun _ _ w => (if attrib_fails then Some "exit status 1" else None, w);
  DeleteDirectory := DeleteDirectory (Host:=Mock.host)
|}.

Definition resolutionFolderPath : string := join ["C:"; "work"; "resolution"].

Definition world : Mock.World :=
  Mock.with_dirs Mock.success [resolutionFolderPath].
End MockWindows.

(** A host whose [DeleteDirectory] removes a directory tree, as [os.RemoveAll]
    does: the directory named, with or without a trailing slash, and every
    directory below it. *)
Module MockTree.
Definition slash : Ascii.ascii := Ascii.ascii_of_nat 47.

Definition trim_slash (p : string) : string :=
  let n := String.length p in
  match String.get (n - 1) p with
  | Some c =>
      if Ascii.eqb c slash && Nat.ltb 1 n then String.substring 0 (n - 1) p else p
  | None => p
  end.

(** [d] is [root] or lies below it. *)
Definition within (root d : string) : bool :=
  (d =? root) || String.prefix (root ++ "/") d.

Definition host : Host Mock.World := {|
  GOOS := "linux";
  filepath_Join := Mock.join;
  IsValidFolderPath := IsValidFolderPath (Host:=Mock.host);
  os_MkdirAll := os_MkdirAll (Host:=Mock.host);
  exec_Run := fun _ _ w => (None, w);
  DeleteDirectory := fun p w =>
    if Mock.mem p (Mock.undeletable w)
    then (Some ("unlinkat " ++ p ++ ": permission denied"), w)
    else (None,
          Mock.with_dirs w
            (filter (fun d => negb (within (trim_slash p) d)) (Mock.dirs w)))
|}.

(** The extractor names the resolution folder with a trailing slash. *)
Definition aliased : Mock.World :=
  Mock.with_on_ExtractFiles Mock.success
    (Mock.sampleFileImages, Mock.sampleSettings,
     Mock.resolutionFolderPath ++ "/", None).
End MockTree.

(** ** More ways to read a trace *)

Section TraceMeasures.
Context `{Types}.

Definition is_IsValidFolderPath (ev : Event) : bool :=
  match ev with EvIsValidFolderPath _ _ _ => true | _ => false end.
Definition is_MkdirAll (ev : Event) : bool :=
  match ev with EvMkdirAll _ _ _ => true | _ => false end.
Definition is_ExecRun (ev : Event) : bool :=
  match ev with EvExecRun _ _ _ => true | _ => false end.

(** A call made by [validate]. *)
Definition is_validation_call (ev : Event) : bool :=
  is_IsValidFolderPath ev || is_MkdirAll ev || is_ExecRun ev.

(** A call on the [zerolog] logger. *)
Definition is_logger_event (ev : Event) : bool :=
  match ev with EvSetGlobalLevel _ | EvLog _ _ _ _ => true | _ => false end.

(** A message logged at error level. *)
Definition is_error_log (ev : Event) : bool :=
  match ev with EvLog ErrorLevel _ _ _ => true | _ => false end.

(** The four steps of the pipeline, and the step a collaborator call
    performs. *)
Inductive Step := StepExtract | StepMerge | StepAnalyze | StepSave.

Definition step_of (ev : Event) : option Step :=
  match ev with
  | EvExtractFiles _ _ _ => Some StepExtract
  | EvExtractAndMergeImagesFromFiles _ _ _ _ => Some StepMerge
  | EvAnalyzeImages _ _ | EvAnalyzeImagesWithPlatform _ _ _ => Some StepAnalyze
  | EvSaveObjectToFile _ _ _ => Some StepSave
  | _ => None
  end.

(** The steps a trace performed, in order. *)
Fixpoint steps (tr : list Event) : list Step :=
  match tr with
  | [] => []
  | ev :: tr' =>
      match step_of ev with
      | Some s => s :: steps tr'
      | None => steps tr'
      end
  end.

(** The logger calls a revision makes before validation: the current and the
    previous revision set the global level and log the parameters, the simple
    one only logs the parameters. *)
Definition logger_setup (rev : Revision) (scanPath resolutionFolderPath : string)
    (images : list string) (isDebug : bool) : list Event :=
  match rev with
  | SimpleRevision => [params_log scanPath resolutionFolderPath images isDebug]
  | _ => header scanPath resolutionFolderPath images isDebug
  end.

(** The analyzer method a revision calls. *)
Definition platform_of (rev : Revision) : option string :=
  match rev with
  | CurrentRevision => Some "linux/amd64"
  | _ => None
  end.
End TraceMeasures.

(** ** Proof automation: running the program symbolically *)

Ltac unfold_calls :=
  unfold zerolog_SetGlobalLevel, log_Debug_Msg, log_Debug_Msgf, log_Err_Msg,
    log_Warn_Err_Msg, do_IsValidFolderPath, do_MkdirAll, do_exec_Run,
    do_DeleteDirectory, do_ExtractFiles, do_ExtractAndMergeImagesFromFiles,
    do_AnalyzeImages, do_AnalyzeImagesWithPlatform, do_SaveObjectToFile,
    bind, ret, emit, call in *.

Ltac step :=
  match goal with
  | |- context [match ?x with _ => _ end] =>
      lazymatch x with
      | context [match _ with _ => _ end] => fail
      | _ => destruct x eqn:?
      end
  end.

Ltac run := unfold_calls; repeat (step; cbn [fst snd app negb andb orb Bool.eqb] in * ).

(** * Properties *)

Open Scope list_scope.

(** ** Traces *)

Section TraceFacts.
Context `{Types}.

Lemma called_app (kind : Event -> bool) (t1 t2 : list Event) :
  called kind (t1 ++ t2) = called kind t1 || called kind t2.
Proof. apply existsb_app. Qed.

Lemma called_ok_app (kind : Event -> bool) (t1 t2 : list Event) :
  called_ok kind (t1 ++ t2) = called_ok kind t1 || called_ok kind t2.
Proof. apply existsb_app. Qed.

Lemma called_In (kind : Event -> bool) (tr : list Event) (ev : Event) :
  In ev tr -> kind ev = true -> called kind tr = true.
Proof. intros Hin Hk. apply existsb_exists. eauto. Qed.

Lemma not_called_In (kind : Event -> bool) (tr : list Event) (ev : Event) :
  called kind tr = false -> In ev tr -> kind ev = false.
Proof.
  intros Hc Hin. destruct (kind ev) eqn:Hk; [|reflexivity].
  rewrite (called_In kind tr ev Hin Hk) in Hc. discriminate.
Qed.

(** A trace made of events of one kind holds no event of a disjoint kind. *)
Lemma called_disjoint (only kind : Event -> bool) (tr : list Event) :
  (forall ev, only ev = true -> kind ev = false) ->
  forallb only tr = true -> called kind tr = false.
Proof.
  intros Hdis. unfold called.
  induction tr as [|ev tr IH]; cbn [existsb forallb]; [reflexivity|].
  intros Hall. apply andb_prop in Hall as [Hev Htr].
  rewrite (Hdis ev Hev), (IH Htr). reflexivity.
Qed.

Lemma called_ok_called (kind : Event -> bool) (tr : list Event) :
  called kind tr = false -> called_ok kind tr = false.
Proof.
  unfold called, called_ok.
  induction tr as [|ev tr IH]; cbn [existsb]; [reflexivity|].
  intros Hc. apply orb_false_elim in Hc as [Hev Htr].
  rewrite Hev, (IH Htr). reflexivity.
Qed.
End TraceFacts.

(** Side conditions of [called_disjoint]: the two kinds share no event. *)
Ltac disjoint_kinds :=
  let ev := fresh "ev" in
  let Hk := fresh "Hk" in
  intros ev Hk; destruct ev; cbn in Hk |- *; try reflexivity; try discriminate;
  repeat match goal with
    | l : Level |- _ => destruct l; cbn in Hk |- *; try reflexivity; try discriminate
    | e : error |- _ => destruct e; cbn in Hk |- *; try reflexivity; try discriminate
    end;
  repeat match goal with
    | Hk : (_ || _) = true |- _ => apply orb_prop in Hk as [Hk|Hk]
    end;
  try (apply String.eqb_eq in Hk; subst; reflexivity).

Section KindFacts.
Context `{Types}.

Lemma validation_trace_quiet (tr : list Event) :
  forallb is_validation_event tr = true ->
  called is_ExtractFiles tr = false /\ called is_Merge tr = false
  /\ called is_Analyze tr = false /\ called is_Save tr = false
  /\ called is_Delete tr = false /\ called is_output_deletion_warning tr = false.
Proof.
  intros Hall. repeat split;
    (eapply called_disjoint; [|exact Hall]; disjoint_kinds).
Qed.

Lemma cleanup_trace_quiet (tr : list Event) :
  forallb is_cleanup_event tr = true ->
  called is_ExtractFiles tr = false /\ called is_Merge tr = false
  /\ called is_Analyze tr = false /\ called is_Save tr = false.
Proof.
  intros Hall. repeat split;
    (eapply called_disjoint; [|exact Hall]; disjoint_kinds).
Qed.
End KindFacts.

(** ** The current revision, function by function *)

Section CurrentFacts.
Context `{Types} {W : Type} `{!Host W} `{!ImagesExtractor W} `{!SyftPackagesExtractor W}.

Lemma current_validate_events (p : string) (w : W) :
  forallb is_validation_event (trace (Current.validate p w)) = true.
Proof.
  unfold Current.validate, Current.hideDirectoryOnWindows, trace.
  run; reflexivity.
Qed.

(** The folder-validity check failed or said no: [validate] stops there and
    hands back the check's error, nil or not. *)
Lemma current_validate_invalid (p : string) (w : W) {w1 : W} {v : bool} {e : error} :
  IsValidFolderPath p w = (v, e, w1) ->
  e <> None \/ v = false ->
  Current.validate p w = (("", e), w1, [EvIsValidFolderPath p v e]).
Proof.
  intros Hv Hbad. unfold Current.validate. unfold_calls. rewrite Hv. cbn.
  destruct e as [msg|]; [reflexivity|].
  destruct Hbad as [Hbad|Hbad]; [congruence|]. subst v. reflexivity.
Qed.

Lemma current_validate_mkdir_fails (p : string) (w : W) {w1 w2 : W} {e : string} :
  IsValidFolderPath p w = (true, None, w1) ->
  os_MkdirAll (checkmarxPath_current p) 493 w1 = (Some e, w2) ->
  Current.validate p w
  = (("", Some e), w2,
     [EvIsValidFolderPath p true None;
      EvMkdirAll (checkmarxPath_current p) 493 (Some e)]).
Proof.
  intros Hv Hm. unfold Current.validate, checkmarxPath_current in *. unfold_calls.
  rewrite Hv. cbn. rewrite Hm. reflexivity.
Qed.

Lemma current_validate_ok (p : string) (w : W) {w1 w2 : W} :
  IsValidFolderPath p w = (true, None, w1) ->
  os_MkdirAll (checkmarxPath_current p) 493 w1 = (None, w2) ->
  result (Current.validate p w) = (checkmarxPath_current p, None)
  /\ exists rest,
      trace (Current.validate p w)
      = EvIsValidFolderPath p true None
          :: EvMkdirAll (checkmarxPath_current p) 493 None :: rest.
Proof.
  intros Hv Hm.
  unfold Current.validate, Current.hideDirectoryOnWindows, checkmarxPath_current,
    result, trace in *.
  unfold_calls. rewrite Hv. cbn. rewrite Hm. cbn.
  destruct (GOOS =? "windows"); cbn; [|eauto].
  destruct (exec_Run _ _ w2) as [[msg|] w3]; cbn; eauto.
Qed.

(** What the result of [validate] says about its trace. *)
Lemma current_validate_inv (p : string) (w : W) :
  match result (Current.validate p w) with
  | (cx, Some e) => cx = ""
  | (cx, None) =>
      (cx = "" /\ In (EvIsValidFolderPath p false None) (trace (Current.validate p w))
       /\ forall e, ~ In (EvIsValidFolderPath p true e) (trace (Current.validate p w)))
      \/ (cx = checkmarxPath_current p
          /\ In (EvIsValidFolderPath p true None) (trace (Current.validate p w))
          /\ In (EvMkdirAll cx 493 None) (trace (Current.validate p w)))
  end.
Proof.
  destruct (IsValidFolderPath p w) as [[v e] w1] eqn:Hv.
  destruct e as [msg|].
  { rewrite (current_validate_invalid p w Hv) by (left; discriminate). reflexivity. }
  destruct v.
  - destruct (os_MkdirAll (checkmarxPath_current p) 493 w1) as [[msg|] w2] eqn:Hm.
    + rewrite (current_validate_mkdir_fails p w Hv Hm). reflexivity.
    + destruct (current_validate_ok p w Hv Hm) as [Hr [rest Ht]].
      rewrite Hr, Ht. right. cbn. auto.
  - rewrite (current_validate_invalid p w Hv) by (right; reflexivity).
    cbn. left. repeat split; auto. intros e [Hin|[]]. discriminate.
Qed.

Lemma current_cleanup_events (orig out cx : string) (w : W) :
  forallb is_cleanup_event (trace (Current.cleanup orig out cx w)) = true.
Proof. unfold Current.cleanup, trace. run; reflexivity. Qed.

(** [cleanup] returns the error of the output directory's deletion, and
    nil when the guard skips that deletion. *)
Lemma current_cleanup_result (orig out cx : string) (w : W) :
  result (Current.cleanup orig out cx w)
  = if deletes_output orig out then fst (DeleteDirectory out w) else None.
Proof.
  unfold Current.cleanup, deletes_output, result. run; reflexivity.
Qed.

(** The output-deletion warning is logged exactly when [cleanup] returns an
    error. *)
Lemma current_cleanup_warning (orig out cx : string) (w : W) :
  called is_output_deletion_warning (trace (Current.cleanup orig out cx w))
  = match result (Current.cleanup orig out cx w) with Some _ => true | None => false end.
Proof. unfold Current.cleanup, result, trace. run; reflexivity. Qed.

(** Which directories [cleanup] asks to delete. *)
Lemma current_cleanup_deletes (orig out cx q : string) (e : error) (w : W) :
  In (EvDeleteDirectory q e) (trace (Current.cleanup orig out cx w)) ->
  (q = out /\ deletes_output orig out = true) \/ (q = cx /\ cx <> "").
Proof.
  unfold Current.cleanup, deletes_output, trace.
  run; cbn; intros Hin;
    repeat match goal with
      | H : (_ =? _) = false |- _ => apply String.eqb_neq in H
      | H : _ \/ _ |- _ => destruct H
      | H : False |- _ => destruct H
      | H : EvDeleteDirectory _ _ = EvDeleteDirectory _ _ |- _ => inversion H; subst; clear H
      | H : EvLog _ _ _ _ = EvDeleteDirectory _ _ |- _ => discriminate H
      | H : negb (?s =? "") = true |- _ =>
          apply negb_true_iff in H; apply String.eqb_neq in H
      end; auto.
Qed.

(** A non-empty results path is always handed to [DeleteDirectory]; when
    that deletion fails, the failure is logged as a warning. *)
Lemma current_cleanup_results_dir (orig out cx : string) (w : W) :
  cx <> "" ->
  exists e, In (EvDeleteDirectory cx e) (trace (Current.cleanup orig out cx w))
    /\ match e with
       | Some _ =>
           In (EvLog WarnLevel e
                 "Could not delete containers directory inside .checkmarx folder" [])
              (trace (Current.cleanup orig out cx w))
       | None => True
       end.
Proof.
  intros Hcx. apply String.eqb_neq in Hcx.
  unfold Current.cleanup, trace. unfold_calls. rewrite Hcx.
  repeat (step; cbn [fst snd app negb andb orb]);
    match goal with
    | Hd : DeleteDirectory cx _ = (?e, _) |- _ => exists e
    end; split; cbn; auto 8.
Qed.

(** When [cleanup] returns an error, the output directory's deletion was
    attempted and returned that error. *)
Lemma current_cleanup_error (orig out cx : string) (e : string) (w : W) :
  result (Current.cleanup orig out cx w) = Some e ->
  deletes_output orig out = true
  /\ In (EvDeleteDirectory out (Some e)) (trace (Current.cleanup orig out cx w)).
Proof.
  unfold Current.cleanup, deletes_output, result, trace.
  run; intros Hr; try discriminate Hr; inversion Hr; subst; cbn; auto.
Qed.

(** [Resolve] is its header, [validate], and then either the validation
    error or a run of the pipeline. *)
Lemma current_Resolve_run (scanPath p : string) (images : list string) (isDebug : bool)
    (w : W) :
  exists cx verr w1 vtr,
    Current.validate p w = ((cx, verr), w1, vtr)
    /\ match verr with
       | Some e =>
           Current.Resolve scanPath p images isDebug w
           = (Some e, w1,
              header scanPath p images isDebug ++ vtr
              ++ [error_log e
                    "Resolution Path is not valid or could not create .checkmarx folder."])
       | None =>
           exists r w' ptr,
             PipelineRun scanPath images (Some "linux/amd64") cx
               (fun out => Current.cleanup p out cx) w1 r w' ptr
             /\ Current.Resolve scanPath p images isDebug w
                = (r, w', header scanPath p images isDebug ++ vtr ++ ptr)
       end.
Proof.
  unfold Current.Resolve.
  destruct (Current.validate p w) as [[[cx verr] w1] vtr] eqn:Hval.
  exists cx, verr, w1, vtr. split; [reflexivity|].
  unfold_calls; unfold header, params_log, error_log.
  destruct isDebug; cbv beta iota; rewrite Hval; cbv beta iota.
  all: destruct verr as [e|]; [reflexivity|].
  all: destruct (ExtractFiles scanPath w1) as [[[[files settings] out] [e|]] w2] eqn:Hx;
    [do 3 eexists; split; [eapply ExtractFails; eassumption|reflexivity]|].
  all: cbn [fst snd].
  all: destruct (ExtractAndMergeImagesFromFiles files (ToImageModels images) settings w2)
    as [[merged [e|]] w3] eqn:Hm;
    [do 3 eexists; split; [eapply MergeFails; eassumption|reflexivity]|].
  all: cbn [fst snd].
  all: destruct (AnalyzeImagesWithPlatform merged "linux/amd64" w3)
    as [[res [e|]] w4] eqn:Ha;
    [do 3 eexists; split; [eapply AnalysisFails; eassumption|reflexivity]|].
  all: cbn [fst snd].
  all: destruct (SaveObjectToFile cx res w4) as [[e|] w5] eqn:Hs;
    [do 3 eexists; split; [eapply SaveFails; eassumption|reflexivity]|].
  all: destruct (Current.cleanup p out cx w5) as [[ce w6] ctr] eqn:Hc.
  all: do 3 eexists; (split; [eapply CleanedUp; eassumption|]).
  all: destruct ce; cbn [app]; rewrite ?app_nil_r; reflexivity.
Qed.
End CurrentFacts.

(** ** The previous and the simple revision *)

Section EarlierFacts.
Context `{Types} {W : Type} `{!Host W} `{!ImagesExtractor W} `{!SyftPackagesExtractor W}.

Lemma previous_validate_events (p : string) (w : W) :
  forallb is_validation_event (trace (Previous.validate p w)) = true.
Proof. unfold Previous.validate, trace. run; reflexivity. Qed.

Lemma previous_validate_ok (p : string) (w : W) {w1 w2 : W} :
  IsValidFolderPath p w = (true, None, w1) ->
  os_MkdirAll (checkmarxPath_previous p) 493 w1 = (None, w2) ->
  Previous.validate p w
  = ((checkmarxPath_previous p, None), w2,
     [EvIsValidFolderPath p true None;
      EvMkdirAll (checkmarxPath_previous p) 493 None]).
Proof.
  intros Hv Hm. unfold Previous.validate, checkmarxPath_previous in *. unfold_calls.
  rewrite Hv. cbn. rewrite Hm. reflexivity.
Qed.

Lemma previous_cleanup_events (orig out cx : string) (w : W) :
  forallb is_cleanup_event (trace (Previous.cleanup orig out cx w)) = true.
Proof. unfold Previous.cleanup, trace. run; reflexivity. Qed.

Lemma simple_validate_events (p : string) (w : W) :
  forallb is_validation_event (trace (Simple.validate p w)) = true.
Proof. unfold Simple.validate, trace. run; reflexivity. Qed.

Lemma simple_cleanup_events (orig out : string) (w : W) :
  forallb is_cleanup_event (trace (Simple.cleanup orig out w)) = true.
Proof. unfold Simple.cleanup, trace. run; reflexivity. Qed.

Lemma previous_cleanup_deletes (orig out cx q : string) (e : error) (w : W) :
  In (EvDeleteDirectory q e) (trace (Previous.cleanup orig out cx w)) ->
  deletes_output orig out = true /\ cx <> "" /\ (q = out \/ q = cx).
Proof.
  unfold Previous.cleanup, deletes_output, trace.
  destruct (negb (out =? "") && negb (out =? orig)) eqn:Hguard; cbn [andb];
    [|intros []].
  destruct (cx =? "") eqn:Hcx; cbn [negb]; [intros []|].
  apply String.eqb_neq in Hcx.
  run; cbn; intros [Hin|[Hin|[]]]; inversion Hin; subst; auto.
Qed.

Lemma simple_cleanup_deletes (orig out q : string) (e : error) (w : W) :
  In (EvDeleteDirectory q e) (trace (Simple.cleanup orig out w)) ->
  deletes_output orig out = true /\ q = out.
Proof.
  unfold Simple.cleanup, deletes_output, trace.
  destruct (negb (out =? "") && negb (out =? orig)) eqn:Hguard; [|intros []].
  run; cbn; intros [Hin|[]]; inversion Hin; subst; auto.
Qed.

Lemma previous_Resolve_run (scanPath p : string) (images : list string) (isDebug : bool)
    (w : W) :
  exists cx verr w1 vtr,
    Previous.validate p w = ((cx, verr), w1, vtr)
    /\ match verr with
       | Some e =>
           Previous.Resolve scanPath p images isDebug w
           = (Some e, w1,
              header scanPath p images isDebug ++ vtr
              ++ [error_log e
                    "Resolution Path is not valid or could not create .checkmarx folder."])
       | None =>
           exists r w' ptr,
             PipelineRun scanPath images None cx
               (fun out => Previous.cleanup p out cx) w1 r w' ptr
             /\ Previous.Resolve scanPath p images isDebug w
                = (r, w', header scanPath p images isDebug ++ vtr ++ ptr)
       end.
Proof.
  unfold Previous.Resolve.
  destruct (Previous.validate p w) as [[[cx verr] w1] vtr] eqn:Hval.
  exists cx, verr, w1, vtr. split; [reflexivity|].
  unfold_calls; unfold header, params_log, error_log.
  destruct isDebug; cbv beta iota; rewrite Hval; cbv beta iota.
  all: destruct verr as [e|]; [reflexivity|].
  all: destruct (ExtractFiles scanPath w1) as [[[[files settings] out] [e|]] w2] eqn:Hx;
    [do 3 eexists; split; [eapply ExtractFails; eassumption|reflexivity]|].
  all: cbn [fst snd].
  all: destruct (ExtractAndMergeImagesFromFiles files (ToImageModels images) settings w2)
    as [[merged [e|]] w3] eqn:Hm;
    [do 3 eexists; split; [eapply MergeFails; eassumption|reflexivity]|].
  all: cbn [fst snd].
  all: destruct (AnalyzeImages merged w3) as [[res [e|]] w4] eqn:Ha;
    [do 3 eexists; split; [eapply AnalysisFails; eassumption|reflexivity]|].
  all: cbn [fst snd].
  all: destruct (SaveObjectToFile cx res w4) as [[e|] w5] eqn:Hs;
    [do 3 eexists; split; [eapply SaveFails; eassumption|reflexivity]|].
  all: destruct (Previous.cleanup p out cx w5) as [[ce w6] ctr] eqn:Hc.
  all: do 3 eexists; (split; [eapply CleanedUp; eassumption|]).
  all: destruct ce; cbn [app]; rewrite ?app_nil_r; reflexivity.
Qed.

Lemma simple_Resolve_run (scanPath p : string) (images : list string) (isDebug : bool)
    (w : W) :
  exists verr w1 vtr,
    Simple.validate p w = (verr, w1, vtr)
    /\ match verr with
       | Some e =>
           Simple.Resolve scanPath p images isDebug w
           = (Some e, w1,
              params_log scanPath p images isDebug :: vtr
              ++ [error_log e "Resolution Path is not valid."])
       | None =>
           exists r w' ptr,
             PipelineRun scanPath images None p
               (fun out => Simple.cleanup p out) w1 r w' ptr
             /\ Simple.Resolve scanPath p images isDebug w
                = (r, w', params_log scanPath p images isDebug :: vtr ++ ptr)
       end.
Proof.
  unfold Simple.Resolve.
  destruct (Simple.validate p w) as [[verr w1] vtr] eqn:Hval.
  exists verr, w1, vtr. split; [reflexivity|].
  unfold_calls; unfold params_log, error_log.
  cbv beta iota; rewrite Hval; cbv beta iota.
  destruct verr as [e|]; [reflexivity|].
  destruct (ExtractFiles scanPath w1) as [[[[files settings] out] [e|]] w2] eqn:Hx;
    [do 3 eexists; split; [eapply ExtractFails; eassumption|reflexivity]|].
  cbn [fst snd].
  destruct (ExtractAndMergeImagesFromFiles files (ToImageModels images) settings w2)
    as [[merged [e|]] w3] eqn:Hm;
    [do 3 eexists; split; [eapply MergeFails; eassumption|reflexivity]|].
  cbn [fst snd].
  destruct (AnalyzeImages merged w3) as [[res [e|]] w4] eqn:Ha;
    [do 3 eexists; split; [eapply AnalysisFails; eassumption|reflexivity]|].
  cbn [fst snd].
  destruct (SaveObjectToFile p res w4) as [[e|] w5] eqn:Hs;
    [do 3 eexists; split; [eapply SaveFails; eassumption|reflexivity]|].
  destruct (Simple.cleanup p out w5) as [[ce w6] ctr] eqn:Hc.
  do 3 eexists; (split; [eapply CleanedUp; eassumption|]).
  destruct ce; cbn [app]; rewrite ?app_nil_r; reflexivity.
Qed.

Lemma preamble_of_validation (tr : list Event) :
  forallb is_validation_event tr = true -> forallb is_preamble_event tr = true.
Proof.
  intros Hall. apply forallb_forall. intros ev Hin.
  rewrite forallb_forall in Hall. specialize (Hall ev Hin).
  destruct ev; try discriminate; try reflexivity.
  destruct l; try discriminate; try reflexivity. exact Hall.
Qed.

(** Every run of [Resolve], in every revision, has the shape [ResolveRun]
    describes. *)
Lemma Resolve_of_run (rev : Revision) (scanPath p : string) (images : list string)
    (isDebug : bool) (w : W) :
  ResolveRun scanPath images
    (result (Resolve_of rev scanPath p images isDebug w))
    (trace (Resolve_of rev scanPath p images isDebug w)).
Proof.
  destruct rev; cbn [Resolve_of].
  - destruct (current_Resolve_run scanPath p images isDebug w)
      as (cx & verr & w1 & vtr & Hval & Hrun).
    pose proof (current_validate_events p w) as Hv. rewrite Hval in Hv. unfold trace in Hv. cbn [snd] in Hv.
    apply preamble_of_validation in Hv.
    destruct verr as [e|].
    + rewrite Hrun. cbn [result trace fst snd]. rewrite app_assoc.
      apply ValidationFails. rewrite forallb_app, Hv. reflexivity.
    + destruct Hrun as (r & w' & ptr & Hpipe & Hrun).
      rewrite Hrun. cbn [result trace fst snd]. rewrite app_assoc.
      eapply Validated; [|intros; apply current_cleanup_events|exact Hpipe].
      rewrite forallb_app, Hv. reflexivity.
  - destruct (previous_Resolve_run scanPath p images isDebug w)
      as (cx & verr & w1 & vtr & Hval & Hrun).
    pose proof (previous_validate_events p w) as Hv. rewrite Hval in Hv. unfold trace in Hv. cbn [snd] in Hv.
    apply preamble_of_validation in Hv.
    destruct verr as [e|].
    + rewrite Hrun. cbn [result trace fst snd]. rewrite app_assoc.
      apply ValidationFails. rewrite forallb_app, Hv. reflexivity.
    + destruct Hrun as (r & w' & ptr & Hpipe & Hrun).
      rewrite Hrun. cbn [result trace fst snd]. rewrite app_assoc.
      eapply Validated; [|intros; apply previous_cleanup_events|exact Hpipe].
      rewrite forallb_app, Hv. reflexivity.
  - destruct (simple_Resolve_run scanPath p images isDebug w)
      as (verr & w1 & vtr & Hval & Hrun).
    pose proof (simple_validate_events p w) as Hv. rewrite Hval in Hv. unfold trace in Hv. cbn [snd] in Hv.
    apply preamble_of_validation in Hv.
    destruct verr as [e|].
    + rewrite Hrun. cbn [result trace fst snd]. rewrite app_comm_cons.
      apply ValidationFails. cbn [forallb]. rewrite Hv. reflexivity.
    + destruct Hrun as (r & w' & ptr & Hpipe & Hrun).
      rewrite Hrun. cbn [result trace fst snd]. rewrite app_comm_cons.
      eapply Validated; [|intros; apply simple_cleanup_events|exact Hpipe].
      cbn [forallb]. rewrite Hv. reflexivity.
Qed.
End EarlierFacts.

(** ** What every run has in common *)

Section RunFacts.
Context `{Types} {W : Type} `{!Host W} `{!ImagesExtractor W} `{!SyftPackagesExtractor W}.

Lemma preamble_trace_quiet (tr : list Event) :
  forallb is_preamble_event tr = true ->
  called is_ExtractFiles tr = false /\ called is_Merge tr = false
  /\ called is_Analyze tr = false /\ called is_Save tr = false
  /\ called is_Delete tr = false /\ called is_output_deletion_warning tr = false.
Proof.
  intros Hall. repeat split;
    (eapply called_disjoint; [|exact Hall]; disjoint_kinds).
Qed.
End RunFacts.

(** Brings the facts about the preamble and the cleanup trace of a run into
    the context, one hypothesis per kind of event. *)
Ltac quiet_facts :=
  repeat match goal with
    | Hpre : forallb is_preamble_event ?pre = true |- _ =>
        lazymatch goal with
        | _ : called is_ExtractFiles pre = false |- _ => fail
        | _ =>
            let H1 := fresh "Hq" in
            pose proof (preamble_trace_quiet pre Hpre) as H1;
            destruct H1 as (? & ? & ? & ? & ? & ?)
        end
    | Hval : forallb is_validation_event ?vtr = true |- _ =>
        lazymatch goal with
        | _ : called is_ExtractFiles vtr = false |- _ => fail
        | _ =>
            let H1 := fresh "Hq" in
            pose proof (validation_trace_quiet vtr Hval) as H1;
            destruct H1 as (? & ? & ? & ? & ? & ?)
        end
    | Hcl : forallb is_cleanup_event ?ctr = true |- _ =>
        lazymatch goal with
        | _ : called is_ExtractFiles ctr = false |- _ => fail
        | _ =>
            let H1 := fresh "Hq" in
            pose proof (cleanup_trace_quiet ctr Hcl) as H1;
            destruct H1 as (? & ? & ? & ?)
        end
    end.

(** Normalises [called] and [called_ok] over the trace of a run. *)
Ltac trace_calls :=
  rewrite ?called_app, ?called_ok_app in *;
  repeat match goal with
    | Hq : called ?k ?t = false |- context [called ?k ?t] => rewrite Hq
    | Hq : called ?k ?t = false |- context [called_ok ?k ?t] =>
        rewrite (called_ok_called k t Hq)
    end;
  cbn.

(** Decomposes a hypothesis [In ev tr] over the trace of a run, and closes
    the cases where [ev] is not of the kind of that part of the trace. *)
Ltac in_trace Hin :=
  repeat match type of Hin with
    | In _ (_ ++ _) => apply in_app_or in Hin; destruct Hin as [Hin|Hin]
    | In _ (match ?c with _ => _ end) => destruct c
    | In _ (header _ _ _ _) => cbn [In header] in Hin
    | In _ (_ :: _) => cbn [In] in Hin
    | In _ [] => destruct Hin
    | _ \/ _ => destruct Hin as [Hin|Hin]
    | False => destruct Hin
    end;
  try match type of Hin with
    | In ?ev ?t =>
        match goal with
        | Hall : forallb ?only t = true |- _ =>
            let Hk := fresh "Hk" in
            pose proof (proj1 (forallb_forall only t) Hall ev Hin) as Hk;
            cbn in Hk; discriminate Hk
        end
    end;
  try discriminate Hin.

(** Case analysis on a run of [Resolve_of rev]: one goal per exit point, with
    the result and the trace replaced by what [ResolveRun] and [PipelineRun]
    say they are. *)
Ltac run_cases rev scanPath p images isDebug w :=
  let Hrun := fresh "Hrun" in
  pose proof (Resolve_of_run rev scanPath p images isDebug w) as Hrun;
  revert Hrun;
  generalize (result (Resolve_of rev scanPath p images isDebug w));
  generalize (trace (Resolve_of rev scanPath p images isDebug w));
  let tr := fresh "tr" in
  let r := fresh "r" in
  intros tr r Hrun;
  let Hpre := fresh "Hpre" in
  let Hclean := fresh "Hclean" in
  let Hpipe := fresh "Hpipe" in
  let platform := fresh "platform" in
  let cleanupM := fresh "cleanupM" in
  destruct Hrun as [? ? ? Hpre|? platform ? cleanupM ? ? ? ? Hpre Hclean Hpipe];
  [|destruct Hpipe;
    try match goal with
      | Hc : cleanupM ?out ?w5 = (_, _, ?ctr) |- _ =>
          let Hcl := fresh "Hcl" in
          pose proof (Hclean out w5) as Hcl; rewrite Hc in Hcl;
          unfold trace in Hcl; cbn [snd] in Hcl
      end;
    destruct platform];
  quiet_facts.

(** ** Claims on every revision *)

Section AllRevisions.
Context `{Types} {W : Type} `{!Host W} `{!ImagesExtractor W} `{!SyftPackagesExtractor W}.

(** C5. When [ExtractFiles] returns an error, [Resolve] returns exactly that
    error, and neither [ExtractAndMergeImagesFromFiles] nor an analyzer
    method is called.  Holds in the three revisions. *)
Theorem extraction_error_aborts (rev : Revision) (scanPath p : string)
    (images : list string) (isDebug : bool) (w : W)
    (scanned out : string) (e : string) :
  In (EvExtractFiles scanned out (Some e))
     (trace (Resolve_of rev scanPath p images isDebug w)) ->
  result (Resolve_of rev scanPath p images isDebug w) = Some e
  /\ called is_Merge (trace (Resolve_of rev scanPath p images isDebug w)) = false
  /\ called is_Analyze (trace (Resolve_of rev scanPath p images isDebug w)) = false.
Proof.
  run_cases rev scanPath p images isDebug w; intros Hin; in_trace Hin.
  all: inversion Hin; subst; trace_calls; auto.
Qed.

(** C6. When the analyzer call returns an error after extraction and merge
    succeeded, [Resolve] returns that error as it is, and
    [SaveObjectToFile] is never called: nothing is persisted.  Holds in the
    three revisions ([AnalyzeImagesWithPlatform] in the current one,
    [AnalyzeImages] in the others). *)
Theorem analysis_error_aborts (rev : Revision) (scanPath p : string)
    (images : list string) (isDebug : bool) (w : W) (ev : Event) (e : string) :
  In ev (trace (Resolve_of rev scanPath p images isDebug w)) ->
  is_Analyze ev = true ->
  returned_error ev = Some e ->
  result (Resolve_of rev scanPath p images isDebug w) = Some e
  /\ called is_Save (trace (Resolve_of rev scanPath p images isDebug w)) = false
  /\ called_ok is_ExtractFiles (trace (Resolve_of rev scanPath p images isDebug w)) = true
  /\ called_ok is_Merge (trace (Resolve_of rev scanPath p images isDebug w)) = true.
Proof.
  run_cases rev scanPath p images isDebug w; intros Hin Hkind Herr.
  all: in_trace Hin.
  all: try (subst ev; try discriminate Hkind; try discriminate Herr;
            cbn in Herr; inversion Herr; subst; trace_calls; auto; fail).
  all: match goal with
       | Hall : forallb _ ?t = true, Hin : In _ ?t |- _ =>
           pose proof (proj1 (forallb_forall _ t) Hall _ Hin) as Hk;
           destruct ev; try discriminate Hk; discriminate Hkind
       end.
Qed.

(** C2, as the code has it.  When [SaveObjectToFile] returns an error,
    [Resolve] returns that error at once: cleanup does not run and no
    directory is deleted.  Holds in the three revisions. *)
Theorem save_error_skips_cleanup (rev : Revision) (scanPath p : string)
    (images : list string) (isDebug : bool) (w : W)
    (folder : string) (obj : list ContainerResolution) (e : string) :
  In (EvSaveObjectToFile folder obj (Some e))
     (trace (Resolve_of rev scanPath p images isDebug w)) ->
  result (Resolve_of rev scanPath p images isDebug w) = Some e
  /\ called is_Delete (trace (Resolve_of rev scanPath p images isDebug w)) = false.
Proof.
  run_cases rev scanPath p images isDebug w; intros Hin; in_trace Hin.
  all: inversion Hin; subst; trace_calls; auto.
Qed.

(** X15. Cleanup comes last: a directory is deleted only in runs where the
    four collaborator calls all succeeded. *)
Lemma deletion_only_after_success (rev : Revision) (scanPath p : string)
    (images : list string) (isDebug : bool) (w : W) :
  called is_Delete (trace (Resolve_of rev scanPath p images isDebug w)) = true ->
  all_four_succeeded (trace (Resolve_of rev scanPath p images isDebug w)) = true.
Proof.
  unfold all_four_succeeded.
  run_cases rev scanPath p images isDebug w; trace_calls;
    try discriminate; try reflexivity.
  all: intros _; rewrite ?orb_true_r; reflexivity.
Qed.

(** The simple revision has no results subdirectory: it saves into the
    resolution folder itself. *)
Lemma simple_saves_into_resolution_folder (scanPath p : string) (images : list string)
    (isDebug : bool) (w : W) (folder : string) (obj : list ContainerResolution)
    (e : error) :
  In (EvSaveObjectToFile folder obj e) (trace (Simple.Resolve scanPath p images isDebug w)) ->
  folder = p.
Proof.
  destruct (simple_Resolve_run scanPath p images isDebug w)
    as (verr & w1 & vtr & Hval & Hrun).
  pose proof (simple_validate_events p w) as Hvev.
  rewrite Hval in Hvev. unfold trace in Hvev. cbn [snd] in Hvev.
  destruct verr as [msg|].
  - rewrite Hrun. unfold trace. cbn [snd]. intros Hin.
    destruct Hin as [Hin|Hin]; [discriminate Hin|]. in_trace Hin.
  - destruct Hrun as (r & w' & ptr & Hpipe & Hrun). rewrite Hrun.
    unfold trace. cbn [snd]. intros Hin.
    destruct Hin as [Hin|Hin]; [discriminate Hin|].
    destruct Hpipe;
      try match goal with
        | Hc : Simple.cleanup ?o ?out ?w5 = (_, _, ?ctr) |- _ =>
            pose proof (simple_cleanup_events o out w5) as Hcl;
            rewrite Hc in Hcl; unfold trace in Hcl; cbn [snd] in Hcl
        end;
      in_trace Hin; inversion Hin; reflexivity.
Qed.
End AllRevisions.

(** ** Claims on the current revision *)

(** Case analysis on a run of [Current.Resolve], keeping what [validate]
    returned: one goal for the validation error, one per exit of the
    pipeline. *)
Ltac current_cases scanPath p images isDebug w :=
  let cx := fresh "cx" in
  let verr := fresh "verr" in
  let w1 := fresh "w1" in
  let vtr := fresh "vtr" in
  let Hval := fresh "Hval" in
  let Hrun := fresh "Hrun" in
  let Hvev := fresh "Hvev" in
  let Hinv := fresh "Hinv" in
  let Hpipe := fresh "Hpipe" in
  destruct (current_Resolve_run scanPath p images isDebug w)
    as (cx & verr & w1 & vtr & Hval & Hrun);
  pose proof (current_validate_events p w) as Hvev;
  pose proof (current_validate_inv p w) as Hinv;
  rewrite Hval in Hvev, Hinv; unfold result, trace in Hvev, Hinv;
  cbn [fst snd] in Hvev, Hinv;
  destruct verr as [?|];
  [rewrite Hrun
  |destruct Hrun as (? & ? & ? & Hpipe & Hrun); rewrite Hrun;
   destruct Hpipe;
   try match goal with
     | Hc : Current.cleanup ?o ?out ?c ?w5 = (?ce, _, ?ctr) |- _ =>
         let Hcl := fresh "Hcl" in
         let Hcw := fresh "Hcw" in
         let Hcr := fresh "Hcr" in
         pose proof (current_cleanup_events o out c w5) as Hcl;
         pose proof (current_cleanup_warning o out c w5) as Hcw;
         pose proof (current_cleanup_result o out c w5) as Hcr;
         rewrite Hc in Hcl, Hcw, Hcr; unfold result, trace in Hcl, Hcw, Hcr;
         cbn [fst snd] in Hcl, Hcw, Hcr
     end];
  unfold result, trace; cbn [fst snd];
  quiet_facts.

Section CurrentClaims.
Context `{Types} {W : Type} `{!Host W} `{!ImagesExtractor W} `{!SyftPackagesExtractor W}.

(** When validation yields an error ([IsValidFolderPath] or [MkdirAll]
    failed), [Resolve] returns that error and calls no collaborator. *)
Lemma current_validation_error_aborts (scanPath p : string) (images : list string)
    (isDebug : bool) (w : W) (e : string) :
  snd (result (Current.validate p w)) = Some e ->
  result (Current.Resolve scanPath p images isDebug w) = Some e
  /\ called is_collaborator_call (trace (Current.Resolve scanPath p images isDebug w))
     = false.
Proof.
  destruct (current_Resolve_run scanPath p images isDebug w)
    as (cx & verr & w1 & vtr & Hval & Hrun).
  pose proof (current_validate_events p w) as Hvev.
  rewrite Hval in *. unfold result, trace in *. cbn [fst snd] in *.
  intros ->. rewrite Hrun. cbn [fst snd]. split; [reflexivity|].
  rewrite !called_app.
  rewrite (called_disjoint is_validation_event is_collaborator_call vtr);
    [reflexivity| |exact Hvev].
  intros [] Hk; try discriminate Hk; reflexivity.
Qed.

(** C3, as the code has it.  For a valid resolution folder, [Resolve]
    returns no error exactly when the four collaborator calls succeeded and
    the deletion of the extractor's output directory did not fail; and a
    run that returns no error has handed the results subdirectory to
    [DeleteDirectory], a failure of which is only logged as a warning. *)
Theorem current_success_iff (scanPath p : string) (images : list string)
    (isDebug : bool) (w : W) :
  In (EvIsValidFolderPath p true None)
     (trace (Current.Resolve scanPath p images isDebug w)) ->
  checkmarxPath_current p <> "" ->
  (result (Current.Resolve scanPath p images isDebug w) = None
   <-> all_four_succeeded (trace (Current.Resolve scanPath p images isDebug w)) = true
       /\ called is_output_deletion_warning
            (trace (Current.Resolve scanPath p images isDebug w)) = false)
  /\ (result (Current.Resolve scanPath p images isDebug w) = None ->
      exists e,
        In (EvDeleteDirectory (checkmarxPath_current p) e)
           (trace (Current.Resolve scanPath p images isDebug w))
        /\ match e with
           | Some _ =>
               In (EvLog WarnLevel e
                     "Could not delete containers directory inside .checkmarx folder" [])
                  (trace (Current.Resolve scanPath p images isDebug w))
           | None => True
           end).
Proof.
  unfold all_four_succeeded.
  current_cases scanPath p images isDebug w; intros Hvalid Hcx.
  all: split; [split; [try discriminate|intros [Hfour Hwarn]]|try discriminate].
  all: try (revert Hfour; trace_calls; discriminate).
  - (* cleaned up: the result is cleanup's *)
    intros ->. rewrite !called_app, Hcw. trace_calls. auto.
  - revert Hwarn. rewrite !called_app, Hcw. trace_calls.
    destruct ce; [discriminate|reflexivity].
  - intros ->.
    assert (cx = checkmarxPath_current p) as ->.
    { destruct Hinv as [(_ & _ & Hno)|(Hcx' & _)]; [|exact Hcx'].
      exfalso. in_trace Hvalid; exact (Hno None Hvalid). }
    destruct (current_cleanup_results_dir p out (checkmarxPath_current p) w5 Hcx)
      as (e & Hdel & Hlog).
    match goal with Hc : Current.cleanup _ _ _ _ = _ |- _ =>
      rewrite Hc in Hdel, Hlog end.
    unfold trace in Hdel, Hlog. cbn [snd] in Hdel, Hlog.
    exists e. split.
    + apply in_or_app. right. apply in_or_app. right.
      apply in_or_app. right. apply in_or_app. left. exact Hdel.
    + destruct e; [|exact I].
      apply in_or_app. right. apply in_or_app. right.
      apply in_or_app. right. apply in_or_app. left. exact Hlog.
Qed.

(** The warning [cleanup] logs for the output directory carries the error
    [cleanup] returns. *)
Lemma current_cleanup_warned (orig out cx : string) (e : string) (w : W) :
  In (EvLog WarnLevel (Some e) "Could not delete output directory" [])
     (trace (Current.cleanup orig out cx w)) ->
  result (Current.cleanup orig out cx w) = Some e.
Proof.
  unfold Current.cleanup, result, trace.
  run; cbn; intros Hin;
    repeat match type of Hin with
      | _ \/ _ => destruct Hin as [Hin|Hin]
      | False => destruct Hin
      end;
    try discriminate Hin; inversion Hin; reflexivity.
Qed.

(** A failed deletion in [cleanup] is either that of the output directory,
    and then its error is returned, or that of the results subdirectory. *)
Lemma current_cleanup_failed_deletion (orig out cx q : string) (e : string) (w : W) :
  In (EvDeleteDirectory q (Some e)) (trace (Current.cleanup orig out cx w)) ->
  (q = out /\ result (Current.cleanup orig out cx w) = Some e)
  \/ (q = cx /\ cx <> "").
Proof.
  unfold Current.cleanup, result, trace.
  run; cbn; intros Hin;
    repeat match type of Hin with
      | _ \/ _ => destruct Hin as [Hin|Hin]
      | False => destruct Hin
      end;
    try discriminate Hin; inversion Hin; subst;
    repeat match goal with
      | Hn : negb (?s =? "") = true |- _ =>
          apply negb_true_iff in Hn; apply String.eqb_neq in Hn
      end; auto.
Qed.

(** C4, as the code has it.  In the current revision, after four successful
    collaborator calls the only error [Resolve] can return is the error of
    deleting the extractor's output directory.  When no deletion of that
    directory failed, [Resolve] returns nil, whatever the deletion of the
    results subdirectory did; and a failed deletion of the output directory
    is returned: the error [cleanup] warns about for the output directory,
    which is the error of every failed [DeleteDirectory] call on an output
    path other than the results subdirectory, is the error [Resolve]
    returns. *)
Theorem only_output_deletion_error_returned (scanPath p : string)
    (images : list string) (isDebug : bool) (w : W) :
  all_four_succeeded (trace (Current.Resolve scanPath p images isDebug w)) = true ->
  exists out,
    In (EvExtractFiles scanPath out None)
       (trace (Current.Resolve scanPath p images isDebug w))
    /\ ((forall e, ~ In (EvDeleteDirectory out (Some e))
                       (trace (Current.Resolve scanPath p images isDebug w))) ->
        result (Current.Resolve scanPath p images isDebug w) = None)
    /\ (forall e,
          result (Current.Resolve scanPath p images isDebug w) = Some e ->
          deletes_output p out = true
          /\ In (EvDeleteDirectory out (Some e))
                (trace (Current.Resolve scanPath p images isDebug w)))
    /\ (forall e,
          In (EvLog WarnLevel (Some e) "Could not delete output directory" [])
             (trace (Current.Resolve scanPath p images isDebug w)) ->
          result (Current.Resolve scanPath p images isDebug w) = Some e)
    /\ (forall e,
          out <> checkmarxPath_current p ->
          In (EvDeleteDirectory out (Some e))
             (trace (Current.Resolve scanPath p images isDebug w)) ->
          result (Current.Resolve scanPath p images isDebug w) = Some e).
Proof.
  unfold all_four_succeeded.
  current_cases scanPath p images isDebug w; intros Hfour.
  all: try (revert Hfour; trace_calls; discriminate).
  assert (forall e, ce = Some e ->
            deletes_output p out = true /\ In (EvDeleteDirectory out (Some e)) ctr)
    as Herr.
  { intros e ->.
    match goal with Hc : Current.cleanup _ _ _ ?w5 = _ |- _ =>
      pose proof (current_cleanup_error p out cx e w5) as Hce;
      rewrite Hc in Hce end.
    apply Hce. reflexivity. }
  assert (forall e, In (EvDeleteDirectory out (Some e)) ctr ->
            In (EvDeleteDirectory out (Some e))
               (header scanPath p images isDebug ++ vtr
                ++ [EvLog DebugLevel None "Call ExtractFiles..." [];
                    EvExtractFiles scanPath out None;
                    EvExtractAndMergeImagesFromFiles files (ToImageModels images)
                      settings None;
                    EvAnalysis (Some "linux/amd64") merged None;
                    EvSaveObjectToFile cx res None]
                ++ ctr
                ++ match ce with
                   | Some e0 => [error_log e0 "Could not cleanup resources."]
                   | None => []
                   end)) as Hlift.
  { intros e Hin. apply in_or_app. right. apply in_or_app. right.
    apply in_or_app. right. apply in_or_app. left. exact Hin. }
  assert (forall e,
            In (EvLog WarnLevel (Some e) "Could not delete output directory" []) ctr ->
            ce = Some e) as Hwarned.
  { intros e Hin.
    match goal with Hc : Current.cleanup _ _ _ ?w5 = _ |- _ =>
      pose proof (current_cleanup_warned p out cx e w5) as Hw;
      rewrite Hc in Hw end.
    apply Hw. exact Hin. }
  assert (forall e, out <> checkmarxPath_current p ->
            In (EvDeleteDirectory out (Some e)) ctr -> ce = Some e) as Hfailed.
  { intros e Hne Hin.
    match goal with Hc : Current.cleanup _ _ _ ?w5 = _ |- _ =>
      pose proof (current_cleanup_failed_deletion p out cx out e w5) as Hf;
      rewrite Hc in Hf end.
    destruct (Hf Hin) as [[_ Hres]|[Heq Hnonempty]]; [exact Hres|].
    exfalso. destruct Hinv as [(Hcx' & _)|(Hcx' & _)].
    - apply Hnonempty. exact Hcx'.
    - apply Hne. rewrite Heq. exact Hcx'. }
  exists out. split; [|split; [|split; [|split]]].
  - apply in_or_app. right. apply in_or_app. right. cbn. auto.
  - intros Hnone. destruct ce as [e|]; [|reflexivity].
    exfalso. apply (Hnone e). apply Hlift. apply (Herr e). reflexivity.
  - intros e ->. destruct (Herr e eq_refl) as [Hguard Hdel]. auto.
  - intros e Hin. apply Hwarned. in_trace Hin; exact Hin.
  - intros e Hne Hin. apply (Hfailed e Hne). in_trace Hin; exact Hin.
Qed.


(** C9. When the folder-validity check answers "not valid" with a nil
    error, [validate] returns the empty path and a nil error, and [Resolve]
    does not abort: it calls [ExtractFiles], then, each step having
    succeeded, [ExtractAndMergeImagesFromFiles], the analyzer and
    [SaveObjectToFile], whose folder argument is the empty string. *)
Theorem invalid_without_error_proceeds (scanPath p : string) (images : list string)
    (isDebug : bool) (w w1 : W) :
  IsValidFolderPath p w = (false, None, w1) ->
  Current.validate p w = (("", None), w1, [EvIsValidFolderPath p false None])
  /\ called is_ExtractFiles (trace (Current.Resolve scanPath p images isDebug w)) = true
  /\ (called_ok is_ExtractFiles (trace (Current.Resolve scanPath p images isDebug w))
      = true ->
      called is_Merge (trace (Current.Resolve scanPath p images isDebug w)) = true)
  /\ (called_ok is_Merge (trace (Current.Resolve scanPath p images isDebug w)) = true ->
      called is_Analyze (trace (Current.Resolve scanPath p images isDebug w)) = true)
  /\ (called_ok is_Analyze (trace (Current.Resolve scanPath p images isDebug w)) = true ->
      exists obj e,
        In (EvSaveObjectToFile "" obj e)
           (trace (Current.Resolve scanPath p images isDebug w)))
  /\ (forall folder obj e,
        In (EvSaveObjectToFile folder obj e)
           (trace (Current.Resolve scanPath p images isDebug w)) ->
        folder = "").
Proof.
  intros Hv.
  pose proof (current_validate_invalid p w Hv (or_intror eq_refl)) as Hval0.
  split; [exact Hval0|]. revert Hval0.
  current_cases scanPath p images isDebug w; intros Hval0;
    rewrite Hval in Hval0; inversion Hval0; subst.
  all: trace_calls.
  all: repeat split; try reflexivity; try discriminate.
  all: try (intros folder obj e' Hin; in_trace Hin; inversion Hin; reflexivity).
  all: intros _; do 2 eexists; repeat (first [left; reflexivity|right]).
Qed.

(** C10. [cleanup] returns exactly the error, nil or not, of deleting the
    extractor's output directory (nil when the guard skips that deletion).
    The deletion of the results subdirectory runs in the world the first
    deletion left; its error is recorded with the call and logged as a
    warning when not nil, and has no part in the value returned. *)
Theorem cleanup_returns_output_deletion_error (orig out cx : string) (w : W) :
  let w1 := if deletes_output orig out then snd (DeleteDirectory out w) else w in
  result (Current.cleanup orig out cx w)
  = (if deletes_output orig out then fst (DeleteDirectory out w) else None)
  /\ (cx <> "" ->
      In (EvDeleteDirectory cx (fst (DeleteDirectory cx w1)))
         (trace (Current.cleanup orig out cx w))
      /\ (forall e, fst (DeleteDirectory cx w1) = Some e ->
            In (EvLog WarnLevel (Some e)
                  "Could not delete containers directory inside .checkmarx folder" [])
               (trace (Current.cleanup orig out cx w)))).
Proof.
  cbv zeta. split; [apply current_cleanup_result|].
  intros Hcx. apply String.eqb_neq in Hcx.
  unfold Current.cleanup, deletes_output, trace. unfold_calls. rewrite Hcx.
  cbn [negb].
  destruct (negb (out =? "") && negb (out =? orig)); cbn [fst snd].
  - destruct (DeleteDirectory out w) as [[e1|] w1] eqn:Hd1; cbn [fst snd];
      destruct (DeleteDirectory cx w1) as [[e2|] w2] eqn:Hd2; cbn; split; auto;
      intros e He; inversion He; subst; auto 6.
  - destruct (DeleteDirectory cx w) as [[e2|] w2] eqn:Hd2; cbn; split; auto;
      intros e He; inversion He; subst; auto.
Qed.

(** C7, as the code has it.  The guard of [cleanup] compares path strings:
    [cleanup] hands the extractor's output path to [DeleteDirectory] only
    when that string is not empty and differs from the resolution folder
    path, and never hands it the resolution folder path itself, the results
    path (its third argument) being empty or another string.  Holds in the
    three revisions.  Nothing here protects the folder from an output path
    that names it by another spelling or names a directory above it. *)
Theorem cleanup_spares_resolution_folder (rev : Revision) (orig out cx : string) (w : W) :
  cx = "" \/ cx <> orig ->
  (forall e, In (EvDeleteDirectory out e) (trace (cleanup_of rev orig out cx w)) ->
             out <> "" /\ out <> orig)
  /\ (forall e, ~ In (EvDeleteDirectory orig e) (trace (cleanup_of rev orig out cx w))).
Proof.
  intros Hcx.
  assert (forall q e, In (EvDeleteDirectory q e) (trace (cleanup_of rev orig out cx w)) ->
            (q = out /\ deletes_output orig out = true) \/ (q = cx /\ cx <> ""))
    as Hdel.
  { intros q e Hin. destruct rev; cbn [cleanup_of] in Hin.
    - exact (current_cleanup_deletes orig out cx q e w Hin).
    - apply previous_cleanup_deletes in Hin as (Hg & Hne & [->| ->]); auto.
    - apply simple_cleanup_deletes in Hin as (Hg & ->); auto. }
  assert (deletes_output orig out = true -> out <> "" /\ out <> orig) as Hguard.
  { unfold deletes_output. intros Hg. apply andb_prop in Hg as [Hg1 Hg2].
    apply negb_true_iff in Hg1, Hg2.
    split; apply String.eqb_neq; assumption. }
  split.
  - intros e Hin. destruct (Hdel out e Hin) as [[_ Hg]|[-> Hne]]; [auto|].
    destruct Hcx as [Hcx|Hcx]; [contradiction|]. auto.
  - intros e Hin. destruct (Hdel orig e Hin) as [[-> Hg]|[-> Hne]].
    + destruct (Hguard Hg) as [_ Hneq]. apply Hneq. reflexivity.
    + destruct Hcx as [Hcx|Hcx]; [contradiction|]. apply Hcx. reflexivity.
Qed.

(** [Current.cleanup] never hands the resolution folder to [DeleteDirectory],
    and hands it the output directory only under the guard. *)
Lemma cleanup_spares_resolution_folder_aux (orig out cx : string) (w : W) :
  cx = "" \/ cx <> orig ->
  (forall e, In (EvDeleteDirectory out e) (trace (Current.cleanup orig out cx w)) ->
             out <> "" /\ out <> orig)
  /\ (forall e, ~ In (EvDeleteDirectory orig e) (trace (Current.cleanup orig out cx w))).
Proof.
  intros Hcx.
  assert (deletes_output orig out = true -> out <> "" /\ out <> orig) as Hguard.
  { unfold deletes_output. intros Hg. apply andb_prop in Hg as [Hg1 Hg2].
    apply negb_true_iff in Hg1, Hg2.
    split; apply String.eqb_neq; assumption. }
  split.
  - intros e Hin.
    destruct (current_cleanup_deletes orig out cx out e w Hin) as [[_ Hg]|[-> Hne]];
      [auto|].
    destruct Hcx as [Hcx|Hcx]; [contradiction|]. auto.
  - intros e Hin.
    destruct (current_cleanup_deletes orig out cx orig e w Hin) as [[-> Hg]|[-> Hne]].
    + destruct (Hguard Hg) as [_ Hneq]. apply Hneq. reflexivity.
    + destruct Hcx as [Hcx|Hcx]; [contradiction|]. apply Hcx. reflexivity.
Qed.

(** X17. At the level of [Resolve]: when the joined results path differs from
    the resolution folder, no run hands the resolution folder to
    [DeleteDirectory]. *)
Lemma current_Resolve_spares_resolution_folder (scanPath p : string)
    (images : list string) (isDebug : bool) (w : W) (e : error) :
  checkmarxPath_current p <> p ->
  ~ In (EvDeleteDirectory p e) (trace (Current.Resolve scanPath p images isDebug w)).
Proof.
  intros Hne.
  current_cases scanPath p images isDebug w; intros Hin; in_trace Hin.
  assert (In (EvDeleteDirectory p e) (trace (Current.cleanup p out cx w5))) as Hdel.
  { match goal with Hc : Current.cleanup _ _ _ _ = _ |- _ => rewrite Hc end.
    exact Hin. }
  assert (cx = "" \/ cx <> p) as Hcx.
  { destruct Hinv as [(-> & _)|(-> & _)]; [left; reflexivity|right; exact Hne]. }
  exact (proj2 (cleanup_spares_resolution_folder_aux p out cx w5 Hcx) e Hdel).
Qed.
End CurrentClaims.

(** ** The program on concrete worlds *)

(** Proves [In ev tr] for a closed trace. *)
Ltac in_closed_trace := vm_compute; repeat (first [left; reflexivity|right]).

Section OnTheMock.
#[local] Existing Instance Mock.types.
#[local] Existing Instance Mock.host.
#[local] Existing Instance Mock.imagesExtractor.
#[local] Existing Instance Mock.syftPackagesExtractor.

(** C1.  A resolution folder path that names an existing regular file is
    not a valid folder, and the validity check says so with a nil error.
    [Resolve] does not reject it: it returns nil after calling the four
    collaborators, [SaveObjectToFile] with the empty string as folder. *)
Theorem invalid_folder_not_rejected :
  fst (IsValidFolderPath (Host:=Mock.host) "../../test_files/resolution.json" Mock.success)
  = (false, None)
  /\ result (Mock.run CurrentRevision "../../test_files/resolution.json" Mock.success) = None
  /\ all_four_succeeded
       (trace (Mock.run CurrentRevision "../../test_files/resolution.json" Mock.success)) = true
  /\ In (EvSaveObjectToFile "" Mock.expectedResolution None)
        (trace (Mock.run CurrentRevision "../../test_files/resolution.json" Mock.success)).
Proof.
  split; [reflexivity|]. split; [reflexivity|]. split; [reflexivity|].
  in_closed_trace.
Qed.

(** The empty path of the test's validation scenario is rejected with the
    error of [os.Stat]. *)
Example empty_folder_rejected :
  result (Mock.run CurrentRevision "" Mock.success) = Some "stat : no such file or directory"
  /\ called is_collaborator_call (trace (Mock.run CurrentRevision "" Mock.success)) = false.
Proof. split; reflexivity. Qed.

(** C2 fails as stated: [SaveObjectToFile] fails, and [Resolve] returns
    without a single [DeleteDirectory] call, although cleanup, run at that
    point, would have deleted both directories; they are still there. *)
Lemma cleanup_not_attempted_after_save_error :
  In (EvSaveObjectToFile Mock.checkmarxPath Mock.expectedResolution (Some "disk full"))
     (trace (Mock.run CurrentRevision Mock.resolutionFolderPath Mock.save_fails))
  /\ result (Mock.run CurrentRevision Mock.resolutionFolderPath Mock.save_fails)
     = Some "disk full"
  /\ called is_Delete
       (trace (Mock.run CurrentRevision Mock.resolutionFolderPath Mock.save_fails)) = false
  /\ Mock.dirs (world_after (Mock.run CurrentRevision Mock.resolutionFolderPath Mock.save_fails))
     = [Mock.checkmarxPath; Mock.resolutionFolderPath; "/output/path"]
  /\ called is_Delete
       (trace (Mock.cleanup CurrentRevision Mock.resolutionFolderPath "/output/path"
                 Mock.checkmarxPath
                 (world_after
                    (Mock.run CurrentRevision Mock.resolutionFolderPath Mock.save_fails))))
     = true.
Proof.
  split; [in_closed_trace|]. repeat split; reflexivity.
Qed.

Lemma save_error_skips_cleanup_witness :
  In (EvSaveObjectToFile Mock.checkmarxPath Mock.expectedResolution (Some "disk full"))
     (trace (Mock.run CurrentRevision Mock.resolutionFolderPath Mock.save_fails))
  /\ (result (Mock.run CurrentRevision Mock.resolutionFolderPath Mock.save_fails)
      = Some "disk full"
      /\ called is_Delete
           (trace (Mock.run CurrentRevision Mock.resolutionFolderPath Mock.save_fails))
         = false).
Proof.
  split; [in_closed_trace|].
  apply (save_error_skips_cleanup (W:=Mock.World) CurrentRevision Mock.scanPath
           Mock.resolutionFolderPath Mock.images false Mock.save_fails
           Mock.checkmarxPath Mock.expectedResolution "disk full").
  in_closed_trace.
Defined.

(** C3 fails as stated.  The four collaborator calls succeed on a valid
    folder, and [Resolve] returns the error of deleting the extractor's
    output directory; and where the results subdirectory cannot be deleted,
    [Resolve] returns nil and the directory is still there. *)
Lemma success_needs_output_deletion :
  (In (EvIsValidFolderPath Mock.resolutionFolderPath true None)
      (trace (Mock.run CurrentRevision Mock.resolutionFolderPath Mock.output_locked))
   /\ all_four_succeeded
        (trace (Mock.run CurrentRevision Mock.resolutionFolderPath Mock.output_locked)) = true
   /\ result (Mock.run CurrentRevision Mock.resolutionFolderPath Mock.output_locked)
      = Some "unlinkat /output/path: permission denied")
  /\ (result (Mock.run CurrentRevision Mock.resolutionFolderPath Mock.results_locked) = None
      /\ Mock.mem Mock.checkmarxPath
           (Mock.dirs
              (world_after (Mock.run CurrentRevision Mock.resolutionFolderPath
                              Mock.results_locked))) = true).
Proof.
  split; [split; [in_closed_trace|split; reflexivity]|split; reflexivity].
Qed.

Lemma current_success_iff_witness :
  In (EvIsValidFolderPath Mock.resolutionFolderPath true None)
     (trace (Mock.run CurrentRevision Mock.resolutionFolderPath Mock.results_locked))
  /\ checkmarxPath_current (Host0:=Mock.host) Mock.resolutionFolderPath <> ""
  /\ ((result (Mock.run CurrentRevision Mock.resolutionFolderPath Mock.results_locked)
       = None
       <-> all_four_succeeded
             (trace (Mock.run CurrentRevision Mock.resolutionFolderPath
                       Mock.results_locked)) = true
           /\ called is_output_deletion_warning
                (trace (Mock.run CurrentRevision Mock.resolutionFolderPath
                          Mock.results_locked)) = false)
      /\ (result (Mock.run CurrentRevision Mock.resolutionFolderPath Mock.results_locked)
          = None ->
          exists e,
            In (EvDeleteDirectory
                  (checkmarxPath_current (Host0:=Mock.host) Mock.resolutionFolderPath) e)
               (trace (Mock.run CurrentRevision Mock.resolutionFolderPath
                         Mock.results_locked))
            /\ match e with
               | Some _ =>
                   In (EvLog WarnLevel e
                         "Could not delete containers directory inside .checkmarx folder"
                         [])
                      (trace (Mock.run CurrentRevision Mock.resolutionFolderPath
                                Mock.results_locked))
               | None => True
               end)).
Proof.
  split; [in_closed_trace|]. split; [apply String.eqb_neq; reflexivity|].
  apply (current_success_iff (W:=Mock.World) Mock.scanPath Mock.resolutionFolderPath
           Mock.images false Mock.results_locked).
  - in_closed_trace.
  - apply String.eqb_neq; reflexivity.
Defined.

(** C4 fails as stated: the four collaborator calls succeed, the deletion
    of the extractor's output directory fails during cleanup, and [Resolve]
    returns that failure. *)
Lemma output_cleanup_failure_overrides_success :
  all_four_succeeded
    (trace (Mock.run CurrentRevision Mock.resolutionFolderPath Mock.both_locked)) = true
  /\ In (EvDeleteDirectory "/output/path"
           (Some "unlinkat /output/path: permission denied"))
        (trace (Mock.run CurrentRevision Mock.resolutionFolderPath Mock.both_locked))
  /\ result (Mock.run CurrentRevision Mock.resolutionFolderPath Mock.both_locked)
     = Some "unlinkat /output/path: permission denied".
Proof.
  split; [reflexivity|]. split; [in_closed_trace|reflexivity].
Qed.

(** The results subdirectory cannot be deleted, the four calls succeeded:
    [Resolve] returns nil. *)
Lemma only_output_deletion_error_returned_witness :
  all_four_succeeded
    (trace (Mock.run CurrentRevision Mock.resolutionFolderPath Mock.results_locked)) = true
  /\ result (Mock.run CurrentRevision Mock.resolutionFolderPath Mock.results_locked) = None
  /\ In (EvDeleteDirectory Mock.checkmarxPath
           (Some ("unlinkat " ++ Mock.checkmarxPath ++ ": permission denied")%string))
        (trace (Mock.run CurrentRevision Mock.resolutionFolderPath Mock.results_locked)).
Proof.
  assert (all_four_succeeded
            (trace (Mock.run CurrentRevision Mock.resolutionFolderPath
                      Mock.results_locked)) = true) as Hfour by reflexivity.
  split; [exact Hfour|]. split; [|in_closed_trace].
  destruct (only_output_deletion_error_returned (W:=Mock.World) Mock.scanPath
              Mock.resolutionFolderPath Mock.images false Mock.results_locked Hfour)
    as (out & Hext & Hnone & _).
  apply Hnone. intros e Hin.
  assert (out = "/output/path") as ->.
  { vm_compute in Hext.
    repeat (destruct Hext as [Hext|Hext]; try discriminate Hext);
      [inversion Hext; reflexivity|destruct Hext]. }
  vm_compute in Hin.
  repeat (destruct Hin as [Hin|Hin]; try discriminate Hin). destruct Hin.
Defined.

Lemma extraction_error_aborts_witness :
  In (EvExtractFiles Mock.scanPath "/output/path" (Some "invalid path"))
     (trace (Mock.run CurrentRevision Mock.resolutionFolderPath Mock.extract_fails))
  /\ (result (Mock.run CurrentRevision Mock.resolutionFolderPath Mock.extract_fails)
      = Some "invalid path"
      /\ called is_Merge
           (trace (Mock.run CurrentRevision Mock.resolutionFolderPath Mock.extract_fails))
         = false
      /\ called is_Analyze
           (trace (Mock.run CurrentRevision Mock.resolutionFolderPath Mock.extract_fails))
         = false).
Proof.
  split; [in_closed_trace|].
  apply (extraction_error_aborts (W:=Mock.World) CurrentRevision Mock.scanPath
           Mock.resolutionFolderPath Mock.images false Mock.extract_fails
           Mock.scanPath "/output/path" "invalid path").
  in_closed_trace.
Defined.

Lemma analysis_error_aborts_witness :
  In (EvAnalyzeImagesWithPlatform Mock.mergedImages "linux/amd64"
        (Some "error analyzing images"))
     (trace (Mock.run CurrentRevision Mock.resolutionFolderPath Mock.analyze_fails))
  /\ (result (Mock.run CurrentRevision Mock.resolutionFolderPath Mock.analyze_fails)
      = Some "error analyzing images"
      /\ called is_Save
           (trace (Mock.run CurrentRevision Mock.resolutionFolderPath Mock.analyze_fails))
         = false
      /\ called_ok is_ExtractFiles
           (trace (Mock.run CurrentRevision Mock.resolutionFolderPath Mock.analyze_fails))
         = true
      /\ called_ok is_Merge
           (trace (Mock.run CurrentRevision Mock.resolutionFolderPath Mock.analyze_fails))
         = true).
Proof.
  split; [in_closed_trace|].
  apply (analysis_error_aborts (W:=Mock.World) CurrentRevision Mock.scanPath
           Mock.resolutionFolderPath Mock.images false Mock.analyze_fails
           (EvAnalyzeImagesWithPlatform Mock.mergedImages "linux/amd64"
              (Some "error analyzing images"))
           "error analyzing images").
  - in_closed_trace.
  - reflexivity.
  - reflexivity.
Defined.

(** C7 fails as stated.  The extractor returns the resolution folder with a
    trailing slash: the string differs from the resolution folder path, so
    [cleanup] hands it to [DeleteDirectory], and the resolution folder, there
    before the run, is gone after it.  The same happens in [cleanup] for an
    output path that names the directory above the resolution folder. *)
Lemma resolution_folder_deleted_under_another_name :
  (Mock.mem Mock.resolutionFolderPath (Mock.dirs MockTree.aliased) = true
   /\ In (EvDeleteDirectory (Mock.resolutionFolderPath ++ "/")%string None)
         (trace (Current.Resolve (Host0:=MockTree.host) Mock.scanPath
                   Mock.resolutionFolderPath Mock.images false MockTree.aliased))
   /\ result (Current.Resolve (Host0:=MockTree.host) Mock.scanPath
                Mock.resolutionFolderPath Mock.images false MockTree.aliased) = None
   /\ Mock.mem Mock.resolutionFolderPath
        (Mock.dirs
           (world_after
              (Current.Resolve (Host0:=MockTree.host) Mock.scanPath
                 Mock.resolutionFolderPath Mock.images false MockTree.aliased)))
      = false)
  /\ (Mock.mem Mock.resolutionFolderPath (Mock.dirs Mock.success) = true
      /\ deletes_output Mock.resolutionFolderPath Mock.scanPath = true
      /\ In (EvDeleteDirectory Mock.scanPath None)
            (trace (Current.cleanup (Host0:=MockTree.host) Mock.resolutionFolderPath
                      Mock.scanPath Mock.checkmarxPath Mock.success))
      /\ Mock.mem Mock.resolutionFolderPath
           (Mock.dirs
              (world_after
                 (Current.cleanup (Host0:=MockTree.host) Mock.resolutionFolderPath
                    Mock.scanPath Mock.checkmarxPath Mock.success)))
         = false).
Proof.
  split.
  - split; [reflexivity|]. split; [in_closed_trace|]. split; reflexivity.
  - split; [reflexivity|]. split; [reflexivity|]. split; [in_closed_trace|reflexivity].
Qed.

Lemma cleanup_spares_resolution_folder_witness :
  (Mock.checkmarxPath = "" \/ Mock.checkmarxPath <> Mock.resolutionFolderPath)
  /\ (forall e,
        ~ In (EvDeleteDirectory Mock.resolutionFolderPath e)
            (trace (Mock.cleanup CurrentRevision Mock.resolutionFolderPath "/output/path"
                      Mock.checkmarxPath Mock.success))).
Proof.
  assert (Mock.checkmarxPath = "" \/ Mock.checkmarxPath <> Mock.resolutionFolderPath)
    as Hcx by (right; apply String.eqb_neq; reflexivity).
  split; [exact Hcx|].
  apply (cleanup_spares_resolution_folder (W:=Mock.World) CurrentRevision
           Mock.resolutionFolderPath "/output/path" Mock.checkmarxPath Mock.success Hcx).
Defined.


Lemma invalid_without_error_proceeds_witness :
  IsValidFolderPath (Host:=Mock.host) "../../test_files/resolution.json" Mock.success
  = (false, None, Mock.success)
  /\ Mock.validate "../../test_files/resolution.json" Mock.success
     = (("", None), Mock.success,
        [EvIsValidFolderPath "../../test_files/resolution.json" false None])
  /\ forall folder obj e,
      In (EvSaveObjectToFile folder obj e)
         (trace (Mock.run CurrentRevision "../../test_files/resolution.json"
                   Mock.success)) ->
      folder = "".
Proof.
  assert (IsValidFolderPath (Host:=Mock.host) "../../test_files/resolution.json"
            Mock.success
          = (false, None, Mock.success)) as Hinvalid by reflexivity.
  split; [exact Hinvalid|].
  destruct (invalid_without_error_proceeds (W:=Mock.World) Mock.scanPath
              "../../test_files/resolution.json" Mock.images false Mock.success
              Mock.success Hinvalid) as (Hval & _ & _ & _ & _ & Hfolder).
  split; [exact Hval|exact Hfolder].
Defined.

Lemma cleanup_returns_output_deletion_error_witness :
  Mock.checkmarxPath <> ""
  /\ result (Mock.cleanup CurrentRevision Mock.resolutionFolderPath "/output/path"
               Mock.checkmarxPath Mock.results_locked) = None
  /\ In (EvLog WarnLevel
           (Some ("unlinkat " ++ Mock.checkmarxPath ++ ": permission denied")%string)
           "Could not delete containers directory inside .checkmarx folder" [])
        (trace (Mock.cleanup CurrentRevision Mock.resolutionFolderPath "/output/path"
                  Mock.checkmarxPath Mock.results_locked)).
Proof.
  assert (Mock.checkmarxPath <> "") as Hcx by (apply String.eqb_neq; reflexivity).
  split; [exact Hcx|].
  destruct (cleanup_returns_output_deletion_error (W:=Mock.World)
              Mock.resolutionFolderPath "/output/path" Mock.checkmarxPath
              Mock.results_locked) as [Hres Hlog].
  split; [exact Hres|].
  destruct (Hlog Hcx) as [_ Hwarn]. apply Hwarn. reflexivity.
Defined.
End OnTheMock.

(** * Further properties *)

(** ** Every revision: aborts, logging, order of the steps *)

Section MoreTraceFacts.
Context `{Types}.

Lemma steps_app (t1 t2 : list Event) : steps (t1 ++ t2) = steps t1 ++ steps t2.
Proof.
  induction t1 as [|ev t1 IH]; cbn [steps app]; [reflexivity|].
  destruct (step_of ev); rewrite IH; reflexivity.
Qed.

(** A trace made of events that perform no step performs none. *)
Lemma steps_none (only : Event -> bool) (tr : list Event) :
  (forall ev, only ev = true -> step_of ev = None) ->
  forallb only tr = true -> steps tr = [].
Proof.
  intros Hnone. induction tr as [|ev tr IH]; cbn [steps forallb]; [reflexivity|].
  intros Hall. apply andb_prop in Hall as [Hev Htr].
  rewrite (Hnone ev Hev). exact (IH Htr).
Qed.

Lemma preamble_no_step (ev : Event) : is_preamble_event ev = true -> step_of ev = None.
Proof. destruct ev; cbn; intros Hk; try discriminate Hk; reflexivity. Qed.

Lemma cleanup_no_step (ev : Event) : is_cleanup_event ev = true -> step_of ev = None.
Proof. destruct ev; cbn; intros Hk; try discriminate Hk; reflexivity. Qed.

Lemma preamble_no_error_log (tr : list Event) :
  forallb is_preamble_event tr = true -> called is_error_log tr = false.
Proof. apply called_disjoint. disjoint_kinds. Qed.

Lemma cleanup_no_error_log (tr : list Event) :
  forallb is_cleanup_event tr = true -> called is_error_log tr = false.
Proof. apply called_disjoint. disjoint_kinds. Qed.

Lemma cleanup_no_validation_call (tr : list Event) :
  forallb is_cleanup_event tr = true -> called is_validation_call tr = false.
Proof. apply called_disjoint. disjoint_kinds. Qed.
End MoreTraceFacts.

Section MoreOnAllRevisions.
Context `{Types} {W : Type} `{!Host W} `{!ImagesExtractor W} `{!SyftPackagesExtractor W}.

(** X1. When [ExtractAndMergeImagesFromFiles] returns an error, [Resolve]
    returns exactly that error after a successful [ExtractFiles]; no analyzer
    method and no [SaveObjectToFile] is called and no directory is deleted.
    Holds in the three revisions. *)
Theorem merge_error_aborts (rev : Revision) (scanPath p : string)
    (images : list string) (isDebug : bool) (w : W)
    (files : FileImages) (imgs : list ImageModel) (settings : SettingsFiles)
    (e : string) :
  In (EvExtractAndMergeImagesFromFiles files imgs settings (Some e))
     (trace (Resolve_of rev scanPath p images isDebug w)) ->
  result (Resolve_of rev scanPath p images isDebug w) = Some e
  /\ called_ok is_ExtractFiles (trace (Resolve_of rev scanPath p images isDebug w)) = true
  /\ called is_Analyze (trace (Resolve_of rev scanPath p images isDebug w)) = false
  /\ called is_Save (trace (Resolve_of rev scanPath p images isDebug w)) = false
  /\ called is_Delete (trace (Resolve_of rev scanPath p images isDebug w)) = false.
Proof.
  run_cases rev scanPath p images isDebug w; intros Hin; in_trace Hin.
  all: inversion Hin; subst; trace_calls; auto.
Qed.

(** X2. The logger calls of [Resolve] itself (what a collaborator logs inside
    its own call is not among them): when [Resolve] returns error [e], the
    last thing it does is one error-level logger call carrying [e], and it
    makes no other error-level logger call; when it returns nil it makes
    none.  Holds in the three revisions. *)
Theorem failure_logged_last (rev : Revision) (scanPath p : string)
    (images : list string) (isDebug : bool) (w : W) :
  match result (Resolve_of rev scanPath p images isDebug w) with
  | Some e =>
      exists before msg,
        trace (Resolve_of rev scanPath p images isDebug w)
        = before ++ [EvLog ErrorLevel (Some e) msg []]
        /\ called is_error_log before = false
  | None =>
      called is_error_log (trace (Resolve_of rev scanPath p images isDebug w)) = false
  end.
Proof.
  run_cases rev scanPath p images isDebug w.
  all: repeat match goal with
         | Hp : forallb is_preamble_event ?t = true |- _ =>
             pose proof (preamble_no_error_log t Hp); clear Hp
         | Hc : forallb is_cleanup_event ?t = true |- _ =>
             pose proof (cleanup_no_error_log t Hc); clear Hc
         end.
  all: try destruct ce.
  all: lazymatch goal with
       | |- exists _ _, ?a ++ [_] = _ /\ _ =>
           exists a; eexists; split; [reflexivity|assumption]
       | |- exists _ _, ?a ++ ?b ++ ?c ++ [_] = _ /\ _ =>
           exists (a ++ b ++ c); eexists;
           split; [rewrite <- !app_assoc; reflexivity|trace_calls; reflexivity]
       | |- exists _ _, ?a ++ ?l = _ /\ _ =>
           exists (a ++ removelast l); eexists;
           split; [rewrite <- app_assoc; reflexivity|trace_calls; reflexivity]
       | |- _ = false => trace_calls; reflexivity
       end.
Qed.
End MoreOnAllRevisions.

Section StepsOfARun.
Context `{Types} {W : Type} `{!Host W} `{!ImagesExtractor W} `{!SyftPackagesExtractor W}.

(** X3. The collaborator calls of a run are an initial part of extract, merge,
    analyse, save: each step is called at most once (nothing is retried), in
    this order, and none is skipped.  All four were called exactly when the
    analysis returned no error.  Holds in the three revisions. *)
Theorem steps_in_order (rev : Revision) (scanPath p : string)
    (images : list string) (isDebug : bool) (w : W) :
  exists n,
    n <= 4
    /\ steps (trace (Resolve_of rev scanPath p images isDebug w))
       = firstn n [StepExtract; StepMerge; StepAnalyze; StepSave]
    /\ (n = 4 <-> called_ok is_Analyze (trace (Resolve_of rev scanPath p images isDebug w))
                  = true).
Proof.
  run_cases rev scanPath p images isDebug w.
  all: repeat match goal with
         | Hp : forallb is_preamble_event ?t = true |- _ =>
             pose proof (steps_none is_preamble_event t preamble_no_step Hp); clear Hp
         | Hc : forallb is_cleanup_event ?t = true |- _ =>
             pose proof (steps_none is_cleanup_event t cleanup_no_step Hc); clear Hc
         end.
  all: rewrite ?steps_app, ?called_ok_app.
  all: repeat match goal with
         | Hs : steps ?t = [] |- context [steps ?t] => rewrite Hs
         | Hq : called ?k ?t = false |- context [called_ok ?k ?t] =>
             rewrite (called_ok_called k t Hq)
         end.
  all: try destruct ce; cbn.
  all: first [exists 0; split; [repeat constructor|]; split;
                [reflexivity|split; discriminate]
             |exists 1; split; [repeat constructor|]; split;
                [reflexivity|split; discriminate]
             |exists 2; split; [repeat constructor|]; split;
                [reflexivity|split; discriminate]
             |exists 3; split; [repeat constructor|]; split;
                [reflexivity|split; discriminate]
             |exists 4; split; [repeat constructor|]; split;
                [reflexivity|split; reflexivity]].
Qed.

(** X4. A run has three phases that do not mix: every call of [validate]
    ([IsValidFolderPath], [MkdirAll], [attrib]) comes before every
    collaborator call, and every collaborator call before every
    [DeleteDirectory].  Holds in the three revisions. *)
Theorem phases_do_not_mix (rev : Revision) (scanPath p : string)
    (images : list string) (isDebug : bool) (w : W) :
  exists validation pipeline cleaning,
    trace (Resolve_of rev scanPath p images isDebug w)
    = validation ++ pipeline ++ cleaning
    /\ called is_collaborator_call validation = false
    /\ called is_Delete validation = false
    /\ called is_validation_call pipeline = false
    /\ called is_Delete pipeline = false
    /\ called is_validation_call cleaning = false
    /\ called is_collaborator_call cleaning = false.
Proof.
  assert (forall t : list Event, forallb is_preamble_event t = true ->
            called is_collaborator_call t = false) as Hpc.
  { intros t. apply called_disjoint. disjoint_kinds. }
  assert (forall t : list Event, forallb is_cleanup_event t = true ->
            called is_collaborator_call t = false) as Hcc.
  { intros t. apply called_disjoint. disjoint_kinds. }
  run_cases rev scanPath p images isDebug w.
  all: repeat match goal with
         | Hp : forallb is_preamble_event ?t = true |- _ =>
             pose proof (Hpc t Hp); clear Hp
         | Hc : forallb is_cleanup_event ?t = true |- _ =>
             pose proof (Hcc t Hc);
             pose proof (cleanup_no_validation_call t Hc); clear Hc
         end.
  1: eexists _, [], _; split; [reflexivity|]; repeat split; trace_calls; auto.
  all: try (eexists _, _, []; split; [rewrite app_nil_r; reflexivity|];
            repeat split; trace_calls; auto; fail).
  all: eexists _, _, _; (split; [reflexivity|]); repeat split; trace_calls; auto.
  all: destruct ce; reflexivity.
Qed.

(** X5. [Resolve] hands its inputs on unchanged: [ExtractFiles] is called with
    the scan path, and [ExtractAndMergeImagesFromFiles] with
    [types.ToImageModels] of the explicit image list.  Holds in the three
    revisions. *)
Theorem inputs_handed_on_unchanged (rev : Revision) (scanPath p : string)
    (images : list string) (isDebug : bool) (w : W) :
  (forall scanned out e,
      In (EvExtractFiles scanned out e)
         (trace (Resolve_of rev scanPath p images isDebug w)) ->
      scanned = scanPath)
  /\ (forall files imgs settings e,
        In (EvExtractAndMergeImagesFromFiles files imgs settings e)
           (trace (Resolve_of rev scanPath p images isDebug w)) ->
        imgs = ToImageModels images).
Proof.
  run_cases rev scanPath p images isDebug w.
  all: split; [intros scanned out' e' Hin|intros files' imgs settings' e' Hin];
    in_trace Hin; inversion Hin; reflexivity.
Qed.
End StepsOfARun.

(** ** Where errors come from, revision by revision *)

Section ValidateAndCleanupFacts.
Context `{Types} {W : Type} `{!Host W} `{!ImagesExtractor W} `{!SyftPackagesExtractor W}.

(** Finds, in an explicit trace, the event that returned the error. *)
Ltac find_event :=
  match goal with
  | |- exists ev, In ev ?l /\ _ =>
      let rec go l :=
        lazymatch l with
        | ?a :: ?l' =>
            first [exists a; split; [cbn; auto 10|split; reflexivity]|go l']
        end
      in go l
  end.

Lemma current_validate_error_source (p : string) (w : W) (e : string) :
  snd (result (Current.validate p w)) = Some e ->
  exists ev, In ev (trace (Current.validate p w))
    /\ (is_IsValidFolderPath ev || is_MkdirAll ev) = true
    /\ returned_error ev = Some e.
Proof.
  unfold Current.validate, Current.hideDirectoryOnWindows, result, trace.
  run; intros He; cbn in He; try discriminate He; inversion He; subst; find_event.
Qed.

Lemma current_validate_error_inv (p : string) (w : W) (ev : Event) (e : string) :
  In ev (trace (Current.validate p w)) ->
  (is_IsValidFolderPath ev || is_MkdirAll ev) = true ->
  returned_error ev = Some e ->
  snd (result (Current.validate p w)) = Some e
  /\ called is_ExecRun (trace (Current.validate p w)) = false.
Proof.
  unfold Current.validate, Current.hideDirectoryOnWindows, result, trace.
  run; cbn; intros Hin Hk He;
    repeat match type of Hin with
      | _ \/ _ => destruct Hin as [Hin|Hin]
      | False => destruct Hin
      end;
    subst ev; cbn in Hk, He; try discriminate Hk; try discriminate He;
    inversion He; subst; auto.
Qed.

Lemma current_validate_no_exec (p : string) (w : W) :
  GOOS <> "windows" ->
  called is_ExecRun (trace (Current.validate p w)) = false.
Proof.
  intros Hos. apply String.eqb_neq in Hos.
  unfold Current.validate, Current.hideDirectoryOnWindows, trace.
  unfold_calls. rewrite Hos. run; reflexivity.
Qed.

Lemma previous_validate_error_source (p : string) (w : W) (e : string) :
  snd (result (Previous.validate p w)) = Some e ->
  exists ev, In ev (trace (Previous.validate p w))
    /\ (is_IsValidFolderPath ev || is_MkdirAll ev) = true
    /\ returned_error ev = Some e.
Proof.
  unfold Previous.validate, result, trace.
  run; intros He; cbn in He; try discriminate He; inversion He; subst; find_event.
Qed.

Lemma previous_validate_error_inv (p : string) (w : W) (ev : Event) (e : string) :
  In ev (trace (Previous.validate p w)) ->
  (is_IsValidFolderPath ev || is_MkdirAll ev) = true ->
  returned_error ev = Some e ->
  snd (result (Previous.validate p w)) = Some e
  /\ called is_ExecRun (trace (Previous.validate p w)) = false.
Proof.
  unfold Previous.validate, result, trace.
  run; cbn; intros Hin Hk He;
    repeat match type of Hin with
      | _ \/ _ => destruct Hin as [Hin|Hin]
      | False => destruct Hin
      end;
    subst ev; cbn in Hk, He; try discriminate Hk; try discriminate He;
    inversion He; subst; auto.
Qed.

Lemma previous_validate_no_exec (p : string) (w : W) :
  called is_ExecRun (trace (Previous.validate p w)) = false.
Proof. unfold Previous.validate, trace. run; reflexivity. Qed.

Lemma simple_validate_error_source (p : string) (w : W) (e : string) :
  result (Simple.validate p w) = Some e ->
  exists ev, In ev (trace (Simple.validate p w))
    /\ (is_IsValidFolderPath ev || is_MkdirAll ev) = true
    /\ returned_error ev = Some e.
Proof.
  unfold Simple.validate, result, trace.
  run; intros He; cbn in He; try discriminate He; inversion He; subst; find_event.
Qed.

Lemma simple_validate_error_inv (p : string) (w : W) (ev : Event) (e : string) :
  In ev (trace (Simple.validate p w)) ->
  (is_IsValidFolderPath ev || is_MkdirAll ev) = true ->
  returned_error ev = Some e ->
  result (Simple.validate p w) = Some e
  /\ called is_ExecRun (trace (Simple.validate p w)) = false.
Proof.
  unfold Simple.validate, result, trace.
  run; cbn; intros Hin Hk He;
    repeat match type of Hin with
      | _ \/ _ => destruct Hin as [Hin|Hin]
      | False => destruct Hin
      end;
    subst ev; cbn in Hk, He; try discriminate Hk; try discriminate He;
    inversion He; subst; auto.
Qed.

Lemma simple_validate_no_exec (p : string) (w : W) :
  called is_ExecRun (trace (Simple.validate p w)) = false.
Proof. unfold Simple.validate, trace. run; reflexivity. Qed.

(** In the two earlier revisions [cleanup] returns an error exactly when a
    deletion failed, and the error is that of a failed deletion. *)
Lemma previous_cleanup_error_source (orig out cx : string) (w : W) (e : string) :
  result (Previous.cleanup orig out cx w) = Some e ->
  exists q, In (EvDeleteDirectory q (Some e)) (trace (Previous.cleanup orig out cx w)).
Proof.
  unfold Previous.cleanup, result, trace.
  run; cbn; intros He; try discriminate He; inversion He; subst; eauto.
Qed.

Lemma previous_cleanup_failure_returned (orig out cx q : string) (w : W) (e : string) :
  In (EvDeleteDirectory q (Some e)) (trace (Previous.cleanup orig out cx w)) ->
  result (Previous.cleanup orig out cx w) <> None.
Proof.
  unfold Previous.cleanup, result, trace.
  run; cbn; intros Hin;
    repeat match type of Hin with
      | _ \/ _ => destruct Hin as [Hin|Hin]
      | False => destruct Hin
      end;
    try discriminate Hin; discriminate.
Qed.

Lemma previous_cleanup_skipped (orig out cx : string) (w : W) :
  deletes_output orig out = false ->
  Previous.cleanup orig out cx w = (None, w, []).
Proof.
  unfold deletes_output, Previous.cleanup. intros Hg. rewrite Hg. reflexivity.
Qed.

Lemma simple_cleanup_error_source (orig out : string) (w : W) (e : string) :
  result (Simple.cleanup orig out w) = Some e ->
  exists q, In (EvDeleteDirectory q (Some e)) (trace (Simple.cleanup orig out w)).
Proof.
  unfold Simple.cleanup, result, trace.
  run; cbn; intros He; try discriminate He; inversion He; subst; eauto.
Qed.

Lemma simple_cleanup_failure_returned (orig out q : string) (w : W) (e : string) :
  In (EvDeleteDirectory q (Some e)) (trace (Simple.cleanup orig out w)) ->
  result (Simple.cleanup orig out w) <> None.
Proof.
  unfold Simple.cleanup, result, trace.
  run; cbn; intros Hin;
    repeat match type of Hin with
      | _ \/ _ => destruct Hin as [Hin|Hin]
      | False => destruct Hin
      end;
    try discriminate Hin; discriminate.
Qed.

Lemma simple_cleanup_skipped (orig out : string) (w : W) :
  deletes_output orig out = false ->
  Simple.cleanup orig out w = (None, w, []).
Proof.
  unfold deletes_output, Simple.cleanup. intros Hg. rewrite Hg. reflexivity.
Qed.

Lemma current_cleanup_error_source (orig out cx : string) (w : W) (e : string) :
  result (Current.cleanup orig out cx w) = Some e ->
  exists q, In (EvDeleteDirectory q (Some e)) (trace (Current.cleanup orig out cx w)).
Proof.
  intros He. exists out. exact (proj2 (current_cleanup_error orig out cx e w He)).
Qed.
End ValidateAndCleanupFacts.

Section RunsInDetail.
Context `{Types} {W : Type} `{!Host W} `{!ImagesExtractor W} `{!SyftPackagesExtractor W}.

(** A run of any revision, with what its [validate] and its [cleanup]
    guarantee: where their errors come from, and what they never call. *)
Lemma Resolve_of_detail (rev : Revision) (scanPath p : string) (images : list string)
    (isDebug : bool) (w : W) :
  exists verr vtr,
    forallb is_validation_event vtr = true
    /\ (forall e, verr = Some e ->
          exists ev, In ev vtr
            /\ (is_IsValidFolderPath ev || is_MkdirAll ev) = true
            /\ returned_error ev = Some e)
    /\ (forall ev e, In ev vtr ->
          (is_IsValidFolderPath ev || is_MkdirAll ev) = true ->
          returned_error ev = Some e ->
          verr = Some e /\ called is_ExecRun vtr = false)
    /\ (GOOS <> "windows" \/ rev <> CurrentRevision -> called is_ExecRun vtr = false)
    /\ match verr with
       | Some e =>
           exists w1 msg,
             Resolve_of rev scanPath p images isDebug w
             = (Some e, w1,
                logger_setup rev scanPath p images isDebug ++ vtr ++ [error_log e msg])
       | None =>
           exists saveFolder cleanupM w1 r w' ptr,
             PipelineRun scanPath images (platform_of rev) saveFolder cleanupM w1 r w' ptr
             /\ (forall out w5,
                   forallb is_cleanup_event (trace (cleanupM out w5)) = true
                   /\ (forall e, result (cleanupM out w5) = Some e ->
                         exists q, In (EvDeleteDirectory q (Some e))
                                      (trace (cleanupM out w5)))
                   /\ (rev <> CurrentRevision ->
                       (forall q e,
                           In (EvDeleteDirectory q (Some e)) (trace (cleanupM out w5)) ->
                           result (cleanupM out w5) <> None)
                       /\ (deletes_output p out = false ->
                           cleanupM out w5 = (None, w5, []))))
             /\ Resolve_of rev scanPath p images isDebug w
                = (r, w', logger_setup rev scanPath p images isDebug ++ vtr ++ ptr)
       end.
Proof.
  destruct rev; cbn [Resolve_of logger_setup platform_of].
  - destruct (current_Resolve_run scanPath p images isDebug w)
      as (cx & verr & w1 & vtr & Hval & Hrun).
    pose proof (current_validate_events p w) as Hev.
    pose proof (current_validate_error_source p w) as Hsrc.
    pose proof (current_validate_error_inv p w) as Hinv.
    pose proof (current_validate_no_exec p w) as Hexec.
    rewrite Hval in Hev, Hsrc, Hinv, Hexec.
    unfold result, trace in Hev, Hsrc, Hinv, Hexec. cbn [fst snd] in Hev, Hsrc, Hinv, Hexec.
    exists verr, vtr. split; [exact Hev|]. split; [exact Hsrc|]. split; [exact Hinv|].
    split; [intros [Hos|Hne]; [exact (Hexec Hos)|contradiction]|].
    destruct verr as [e|]; [do 2 eexists; exact Hrun|].
    destruct Hrun as (r & w' & ptr & Hpipe & Hrun).
    exists cx, (fun out => Current.cleanup p out cx), w1, r, w', ptr.
    split; [exact Hpipe|]. split; [|exact Hrun].
    intros out w5. split; [apply current_cleanup_events|].
    split; [apply current_cleanup_error_source|]. intros Hne. contradiction.
  - destruct (previous_Resolve_run scanPath p images isDebug w)
      as (cx & verr & w1 & vtr & Hval & Hrun).
    pose proof (previous_validate_events p w) as Hev.
    pose proof (previous_validate_error_source p w) as Hsrc.
    pose proof (previous_validate_error_inv p w) as Hinv.
    pose proof (previous_validate_no_exec p w) as Hexec.
    rewrite Hval in Hev, Hsrc, Hinv, Hexec.
    unfold result, trace in Hev, Hsrc, Hinv, Hexec. cbn [fst snd] in Hev, Hsrc, Hinv, Hexec.
    exists verr, vtr. split; [exact Hev|]. split; [exact Hsrc|]. split; [exact Hinv|].
    split; [intros _; exact Hexec|].
    destruct verr as [e|]; [do 2 eexists; exact Hrun|].
    destruct Hrun as (r & w' & ptr & Hpipe & Hrun).
    exists cx, (fun out => Previous.cleanup p out cx), w1, r, w', ptr.
    split; [exact Hpipe|]. split; [|exact Hrun].
    intros out w5. split; [apply previous_cleanup_events|].
    split; [apply previous_cleanup_error_source|]. intros _.
    split; [intros q e; apply previous_cleanup_failure_returned
           |apply previous_cleanup_skipped].
  - destruct (simple_Resolve_run scanPath p images isDebug w)
      as (verr & w1 & vtr & Hval & Hrun).
    pose proof (simple_validate_events p w) as Hev.
    pose proof (simple_validate_error_source p w) as Hsrc.
    pose proof (simple_validate_error_inv p w) as Hinv.
    pose proof (simple_validate_no_exec p w) as Hexec.
    rewrite Hval in Hev, Hsrc, Hinv, Hexec.
    unfold result, trace in Hev, Hsrc, Hinv, Hexec. cbn [fst snd] in Hev, Hsrc, Hinv, Hexec.
    exists verr, vtr. split; [exact Hev|]. split; [exact Hsrc|]. split; [exact Hinv|].
    split; [intros _; exact Hexec|].
    destruct verr as [e|]; [do 2 eexists; exact Hrun|].
    destruct Hrun as (r & w' & ptr & Hpipe & Hrun).
    exists p, (fun out => Simple.cleanup p out), w1, r, w', ptr.
    split; [exact Hpipe|]. split; [|exact Hrun].
    intros out w5. split; [apply simple_cleanup_events|].
    split; [apply simple_cleanup_error_source|]. intros _.
    split; [intros q e; apply simple_cleanup_failure_returned
           |apply simple_cleanup_skipped].
Qed.
End RunsInDetail.

(** Case analysis on a run of [Resolve_of rev] with the facts of
    [Resolve_of_detail] in the context: [Hvev], [Hsrc], [Hinv], [Hexec] about
    the trace of [validate], [Hcev], [Hcsrc], [Hcall] about that of
    [cleanup]. *)
Ltac detail_cases rev scanPath p images isDebug w :=
  let verr := fresh "verr" in
  let vtr := fresh "vtr" in
  let Hrun := fresh "Hrun" in
  let Hpipe := fresh "Hpipe" in
  let Hclean := fresh "Hclean" in
  destruct (Resolve_of_detail rev scanPath p images isDebug w)
    as (verr & vtr & Hvev & Hsrc & Hinv & Hexec & Hrun);
  destruct verr as [?|];
  [destruct Hrun as (? & ? & Hrun); rewrite Hrun
  |destruct Hrun as (? & ? & ? & ? & ? & ? & Hpipe & Hclean & Hrun); rewrite Hrun;
   destruct Hpipe;
   try match goal with
     | Hc : _ ?out ?w5 = (?ce, _, ?ctr) |- _ =>
         destruct (Hclean out w5) as (Hcev & Hcsrc & Hcall);
         rewrite Hc in Hcev, Hcsrc, Hcall;
         unfold result, trace in Hcev, Hcsrc, Hcall;
         cbn [fst snd] in Hcev, Hcsrc, Hcall
     end;
   clear Hclean];
  unfold result, trace; cbn [fst snd];
  quiet_facts.

Section MoreOnEveryRevision.
Context `{Types} {W : Type} `{!Host W} `{!ImagesExtractor W} `{!SyftPackagesExtractor W}.

Lemma logger_setup_events (rev : Revision) (scanPath p : string) (images : list string)
    (isDebug : bool) :
  forallb is_logger_event (logger_setup rev scanPath p images isDebug) = true.
Proof. destruct rev; reflexivity. Qed.

Lemma validation_call_not_logged (ev : Event) :
  (is_IsValidFolderPath ev || is_MkdirAll ev) = true ->
  is_logger_event ev = false /\ is_ExecRun ev = false /\ is_validation_event ev = true.
Proof. destruct ev; cbn; intros Hk; try discriminate Hk; auto. Qed.

(** X6. When the folder check or [MkdirAll] returns an error, [Resolve]
    returns exactly that error; it calls no collaborator, deletes nothing and
    does not try to hide the folder.  Holds in the three revisions. *)
Theorem validation_error_aborts (rev : Revision) (scanPath p : string)
    (images : list string) (isDebug : bool) (w : W) (ev : Event) (e : string) :
  In ev (trace (Resolve_of rev scanPath p images isDebug w)) ->
  (is_IsValidFolderPath ev || is_MkdirAll ev) = true ->
  returned_error ev = Some e ->
  result (Resolve_of rev scanPath p images isDebug w) = Some e
  /\ called is_collaborator_call (trace (Resolve_of rev scanPath p images isDebug w))
     = false
  /\ called is_Delete (trace (Resolve_of rev scanPath p images isDebug w)) = false
  /\ called is_ExecRun (trace (Resolve_of rev scanPath p images isDebug w)) = false.
Proof.
  pose proof (logger_setup_events rev scanPath p images isDebug) as Hlog.
  detail_cases rev scanPath p images isDebug w; intros Hin Hk He.
  all: destruct (validation_call_not_logged ev Hk) as (Hnl & Hne & Hve).
  all: in_trace Hin.
  all: try (subst ev; discriminate Hk).
  all: try (subst ev; destruct rev; discriminate Hk).
  all: try (match goal with
            | Hall : forallb ?only ?t = true, Hi : In ?x ?t |- _ =>
                pose proof (proj1 (forallb_forall only t) Hall x Hi) as Hkind;
                destruct x; try discriminate Hk; discriminate Hkind
            end; fail).
  all: destruct (Hinv ev e Hin Hk He) as [Hverr Hnoexec]; try discriminate Hverr.
  inversion Hverr; subst. split; [reflexivity|].
  assert (forall k, (forall x, is_logger_event x = true -> k x = false) ->
            called k (logger_setup rev scanPath p images isDebug) = false) as Hlk.
  { intros k Hk'. eapply called_disjoint; [exact Hk'|exact Hlog]. }
  assert (called is_collaborator_call vtr = false) as Hvc.
  { eapply called_disjoint; [|exact Hvev]. disjoint_kinds. }
  rewrite !called_app.
  rewrite (Hlk is_collaborator_call), (Hlk is_Delete), (Hlk is_ExecRun)
    by disjoint_kinds.
  rewrite Hvc, Hnoexec. trace_calls. auto.
Qed.
End MoreOnEveryRevision.

Section ErrorsAndCleanupOfEveryRevision.
Context `{Types} {W : Type} `{!Host W} `{!ImagesExtractor W} `{!SyftPackagesExtractor W}.

(** X7. [Resolve] never makes up or wraps an error: the error it returns is
    the error some call returned ([IsValidFolderPath], [MkdirAll], a
    collaborator method or [DeleteDirectory]; never the [attrib] command and
    never a logger call).  Holds in the three revisions. *)
Theorem returned_error_comes_from_a_call (rev : Revision) (scanPath p : string)
    (images : list string) (isDebug : bool) (w : W) (e : string) :
  result (Resolve_of rev scanPath p images isDebug w) = Some e ->
  exists ev,
    In ev (trace (Resolve_of rev scanPath p images isDebug w))
    /\ returned_error ev = Some e
    /\ is_logger_event ev = false
    /\ is_ExecRun ev = false.
Proof.
  detail_cases rev scanPath p images isDebug w; intros He; inversion He; subst.
  - destruct (Hsrc e eq_refl) as (ev & Hin & Hk & Herr).
    destruct (validation_call_not_logged ev Hk) as (Hnl & Hne & _).
    exists ev. repeat split; auto.
    apply in_or_app. right. apply in_or_app. left. exact Hin.
  - eexists. split; [apply in_or_app; right; apply in_or_app; right;
                     right; left; reflexivity|]. auto.
  - eexists. split; [apply in_or_app; right; apply in_or_app; right;
                     right; right; left; reflexivity|]. auto.
  - eexists. split; [apply in_or_app; right; apply in_or_app; right;
                     right; right; right; left; reflexivity|].
    destruct rev; auto.
  - eexists. split; [apply in_or_app; right; apply in_or_app; right;
                     right; right; right; right; left; reflexivity|]. auto.
  - destruct (Hcsrc e eq_refl) as (q & Hin).
    exists (EvDeleteDirectory q (Some e)). split; [|auto].
    apply in_or_app. right. apply in_or_app. right.
    apply in_or_app. right. apply in_or_app. left. exact Hin.
Qed.

(** X8. Each revision calls one analyzer method only: the current one
    [AnalyzeImagesWithPlatform] with platform ["linux/amd64"] and never
    [AnalyzeImages], the two earlier ones [AnalyzeImages] and never
    [AnalyzeImagesWithPlatform]. *)
Theorem one_analyzer_method (rev : Revision) (scanPath p : string)
    (images : list string) (isDebug : bool) (w : W) (ev : Event) :
  In ev (trace (Resolve_of rev scanPath p images isDebug w)) ->
  is_Analyze ev = true ->
  exists imgs e,
    ev = match rev with
         | CurrentRevision => EvAnalyzeImagesWithPlatform imgs "linux/amd64" e
         | _ => EvAnalyzeImages imgs e
         end.
Proof.
  pose proof (logger_setup_events rev scanPath p images isDebug) as Hlog.
  detail_cases rev scanPath p images isDebug w; intros Hin Hk.
  all: in_trace Hin.
  all: try (subst ev; discriminate Hk).
  all: try (match goal with
            | Hall : forallb ?only ?t = true, Hi : In ?x ?t |- _ =>
                pose proof (proj1 (forallb_forall only t) Hall x Hi) as Hkind;
                destruct x; try discriminate Hk; try discriminate Hkind;
                destruct l; try discriminate Hkind; destruct e; discriminate Hkind
            end; fail).
  all: subst ev; destruct rev; do 2 eexists; reflexivity.
Qed.

(** X9. In the two earlier revisions a failed deletion is never swallowed:
    when [DeleteDirectory] returned an error, [Resolve] returns an error. *)
Theorem earlier_revisions_return_cleanup_failures (rev : Revision) (scanPath p : string)
    (images : list string) (isDebug : bool) (w : W) (q : string) (e : string) :
  rev <> CurrentRevision ->
  In (EvDeleteDirectory q (Some e)) (trace (Resolve_of rev scanPath p images isDebug w)) ->
  result (Resolve_of rev scanPath p images isDebug w) <> None.
Proof.
  pose proof (logger_setup_events rev scanPath p images isDebug) as Hlog.
  intros Hrev.
  detail_cases rev scanPath p images isDebug w; intros Hin; try discriminate.
  in_trace Hin.
  - destruct rev; discriminate Hin.
  - exact (proj1 (Hcall Hrev) q e Hin).
Qed.

(** X10. In the two earlier revisions, when the extractor's output path is
    empty or is the resolution folder itself, cleanup deletes nothing at all:
    the results subdirectory the previous revision created is left behind. *)
Theorem earlier_revisions_skip_cleanup_in_place (rev : Revision) (scanPath p : string)
    (images : list string) (isDebug : bool) (w : W) (scanned out : string) (e : error) :
  rev <> CurrentRevision ->
  In (EvExtractFiles scanned out e) (trace (Resolve_of rev scanPath p images isDebug w)) ->
  deletes_output p out = false ->
  called is_Delete (trace (Resolve_of rev scanPath p images isDebug w)) = false.
Proof.
  pose proof (logger_setup_events rev scanPath p images isDebug) as Hlog.
  assert (called is_Delete (logger_setup rev scanPath p images isDebug) = false) as Hld.
  { eapply called_disjoint; [|exact Hlog]. disjoint_kinds. }
  intros Hrev.
  detail_cases rev scanPath p images isDebug w; intros Hin Hguard.
  all: rewrite !called_app, Hld.
  all: try (trace_calls; destruct rev; reflexivity).
  in_trace Hin; try (destruct rev; discriminate Hin).
  inversion Hin; subst.
  pose proof (proj2 (Hcall Hrev) Hguard) as Hnil. inversion Hnil; subst.
  trace_calls. destruct rev; reflexivity.
Qed.

(** X11. No revision runs a command except the current one on Windows: off
    Windows, and in the two earlier revisions, no run calls
    [exec.Command(...).Run()]. *)
Theorem no_command_off_windows (rev : Revision) (scanPath p : string)
    (images : list string) (isDebug : bool) (w : W) :
  GOOS <> "windows" \/ rev <> CurrentRevision ->
  called is_ExecRun (trace (Resolve_of rev scanPath p images isDebug w)) = false.
Proof.
  pose proof (logger_setup_events rev scanPath p images isDebug) as Hlog.
  assert (called is_ExecRun (logger_setup rev scanPath p images isDebug) = false) as Hle.
  { eapply called_disjoint; [|exact Hlog]. disjoint_kinds. }
  assert (forall t : list Event, forallb is_cleanup_event t = true ->
            called is_ExecRun t = false) as Hce.
  { intros t. apply called_disjoint. disjoint_kinds. }
  intros Hos.
  detail_cases rev scanPath p images isDebug w.
  all: rewrite !called_app, Hle, (Hexec Hos).
  all: try rewrite (Hce ctr Hcev).
  all: destruct rev; try destruct ce; reflexivity.
Qed.
End ErrorsAndCleanupOfEveryRevision.

(** ** The debug flag, the data handed from step to step, the Windows branch *)

Section FlagDataAndWindows.
Context `{Types} {W : Type} `{!Host W} `{!ImagesExtractor W} `{!SyftPackagesExtractor W}.

(** X12. The debug flag reaches the logger only: with the flag on or off,
    [Resolve] returns the same error, leaves the same world and, after the
    logger calls it starts with (the level it sets, the flag it prints),
    leaves the same trace.  Holds in the three revisions. *)
Theorem debug_flag_reaches_logger_only (rev : Revision) (scanPath p : string)
    (images : list string) (w : W) :
  exists rest,
    trace (Resolve_of rev scanPath p images true w)
    = logger_setup rev scanPath p images true ++ rest
    /\ trace (Resolve_of rev scanPath p images false w)
       = logger_setup rev scanPath p images false ++ rest
    /\ result (Resolve_of rev scanPath p images true w)
       = result (Resolve_of rev scanPath p images false w)
    /\ world_after (Resolve_of rev scanPath p images true w)
       = world_after (Resolve_of rev scanPath p images false w).
Proof.
  destruct rev; cbn [Resolve_of logger_setup].
  - destruct (current_Resolve_run scanPath p images true w)
      as (cx & verr & w1 & vtr & Hval & Hon).
    unfold Current.Resolve in *. unfold_calls. unfold header, params_log, error_log in *.
    cbv beta iota in *. rewrite Hval in *. cbv beta iota in *.
    unfold trace, result, world_after.
    destruct verr as [e|]; [eexists; repeat split; reflexivity|]. clear Hon.
    repeat (step; cbn [fst snd]); eexists; repeat split; reflexivity.
  - destruct (previous_Resolve_run scanPath p images true w)
      as (cx & verr & w1 & vtr & Hval & Hon).
    unfold Previous.Resolve in *. unfold_calls. unfold header, params_log, error_log in *.
    cbv beta iota in *. rewrite Hval in *. cbv beta iota in *.
    unfold trace, result, world_after.
    destruct verr as [e|]; [eexists; repeat split; reflexivity|]. clear Hon.
    repeat (step; cbn [fst snd]); eexists; repeat split; reflexivity.
  - destruct (simple_Resolve_run scanPath p images true w)
      as (verr & w1 & vtr & Hval & Hon).
    unfold Simple.Resolve in *. unfold_calls. unfold params_log, error_log in *.
    cbv beta iota in *. rewrite Hval in *. cbv beta iota in *.
    unfold trace, result, world_after.
    destruct verr as [e|]; [eexists; repeat split; reflexivity|]. clear Hon.
    repeat (step; cbn [fst snd]); eexists; repeat split; reflexivity.
Qed.

(** X13. Each step works on what the step before it returned, in the world
    that step left: whatever [SaveObjectToFile] is given is the resolution
    the analyzer returned for the images the merge returned for the files
    [ExtractFiles] found, starting from the world [validate] left. *)
Theorem steps_feed_each_other (scanPath p : string) (images : list string)
    (isDebug : bool) (w : W) (folder : string) (obj : list ContainerResolution)
    (e : error) :
  In (EvSaveObjectToFile folder obj e)
     (trace (Current.Resolve scanPath p images isDebug w)) ->
  exists files settings out w2 merged w3 w4,
    ExtractFiles scanPath (world_after (Current.validate p w))
    = (files, settings, out, None, w2)
    /\ ExtractAndMergeImagesFromFiles files (ToImageModels images) settings w2
       = (merged, None, w3)
    /\ AnalyzeImagesWithPlatform merged "linux/amd64" w3 = (obj, None, w4)
    /\ fst (SaveObjectToFile folder obj w4) = e.
Proof.
  current_cases scanPath p images isDebug w; intros Hin; in_trace Hin.
  all: inversion Hin; subst; rewrite Hval; unfold world_after; cbn [fst snd].
  all: unfold analysis in *.
  all: do 7 eexists; repeat split; try eassumption.
  all: match goal with Hs : SaveObjectToFile _ _ _ = _ |- _ => rewrite Hs end.
  all: reflexivity.
Qed.

(** X14. On Windows, once the results subdirectory is created, [validate]
    runs [attrib +H] on the [.checkmarx] folder (the parent of the results
    subdirectory), and a failure of that command is not fatal: it is logged
    as a warning, [validate] still returns the results path with a nil error,
    and [Resolve] goes on to call [ExtractFiles]. *)
Theorem hide_failure_is_not_fatal (scanPath p : string) (images : list string)
    (isDebug : bool) (w w1 w2 : W) :
  GOOS = "windows" ->
  IsValidFolderPath p w = (true, None, w1) ->
  os_MkdirAll (checkmarxPath_current p) 493 w1 = (None, w2) ->
  result (Current.validate p w) = (checkmarxPath_current p, None)
  /\ world_after (Current.validate p w)
     = snd (exec_Run "attrib" ["+H"; filepath_Join [p; ".checkmarx"]] w2)
  /\ In (EvExecRun "attrib" ["+H"; filepath_Join [p; ".checkmarx"]]
           (fst (exec_Run "attrib" ["+H"; filepath_Join [p; ".checkmarx"]] w2)))
        (trace (Current.validate p w))
  /\ (forall e,
        fst (exec_Run "attrib" ["+H"; filepath_Join [p; ".checkmarx"]] w2) = Some e ->
        In (EvLog WarnLevel (Some e) "Could not hide .checkmarx folder on Windows" [])
           (trace (Current.validate p w)))
  /\ called is_ExtractFiles (trace (Current.Resolve scanPath p images isDebug w)) = true.
Proof.
  intros Hos Hv Hm.
  assert (result (Current.validate p w) = (checkmarxPath_current p, None)
          /\ world_after (Current.validate p w)
             = snd (exec_Run "attrib" ["+H"; filepath_Join [p; ".checkmarx"]] w2)
          /\ In (EvExecRun "attrib" ["+H"; filepath_Join [p; ".checkmarx"]]
                   (fst (exec_Run "attrib" ["+H"; filepath_Join [p; ".checkmarx"]] w2)))
                (trace (Current.validate p w))
          /\ (forall e,
                fst (exec_Run "attrib" ["+H"; filepath_Join [p; ".checkmarx"]] w2)
                = Some e ->
                In (EvLog WarnLevel (Some e)
                      "Could not hide .checkmarx folder on Windows" [])
                   (trace (Current.validate p w)))) as Hvalidate.
  { unfold Current.validate, Current.hideDirectoryOnWindows, checkmarxPath_current,
      result, world_after, trace in *.
    unfold_calls. rewrite Hv. cbn. rewrite Hm. cbn. rewrite Hos. cbn.
    destruct (exec_Run "attrib" ["+H"; filepath_Join [p; ".checkmarx"]] w2)
      as [[msg|] w3]; cbn; repeat split; auto; intros e He; inversion He; auto. }
  destruct Hvalidate as (Hres & Hworld & Hrun & Hwarn).
  repeat split; auto.
  revert Hres.
  current_cases scanPath p images isDebug w; rewrite Hval; unfold result;
    cbn [fst snd]; intros Hres; inversion Hres; subst; trace_calls; reflexivity.
Qed.
End FlagDataAndWindows.

Section SimpleAndCurrentCleanup.
Context `{Types} {W : Type} `{!Host W} `{!ImagesExtractor W} `{!SyftPackagesExtractor W}.

Lemma simple_validate_creates_nothing (p : string) (w : W) :
  called is_MkdirAll (trace (Simple.validate p w)) = false.
Proof. unfold Simple.validate, trace. run; reflexivity. Qed.

(** X16. The simple revision keeps no results subdirectory: it never calls
    [MkdirAll], and every [SaveObjectToFile] call gets the resolution folder
    itself. *)
Theorem simple_revision_saves_in_place (scanPath p : string) (images : list string)
    (isDebug : bool) (w : W) :
  called is_MkdirAll (trace (Simple.Resolve scanPath p images isDebug w)) = false
  /\ forall folder obj e,
      In (EvSaveObjectToFile folder obj e)
         (trace (Simple.Resolve scanPath p images isDebug w)) ->
      folder = p.
Proof.
  split; [|intros folder obj e; apply simple_saves_into_resolution_folder].
  assert (forall t : list Event, forallb is_cleanup_event t = true ->
            called is_MkdirAll t = false) as Hcm.
  { intros t. apply called_disjoint. disjoint_kinds. }
  destruct (simple_Resolve_run scanPath p images isDebug w)
    as (verr & w1 & vtr & Hval & Hrun).
  pose proof (simple_validate_creates_nothing p w) as Hmk.
  rewrite Hval in Hmk. unfold trace in Hmk. cbn [snd] in Hmk.
  destruct verr as [e|].
  - rewrite Hrun. unfold trace. cbn [snd].
    change (params_log scanPath p images isDebug :: vtr
            ++ [error_log e "Resolution Path is not valid."])
      with ([params_log scanPath p images isDebug] ++ vtr
            ++ [error_log e "Resolution Path is not valid."]).
    rewrite !called_app, Hmk. reflexivity.
  - destruct Hrun as (r & w' & ptr & Hpipe & Hrun). rewrite Hrun.
    unfold trace. cbn [snd].
    change (params_log scanPath p images isDebug :: vtr ++ ptr)
      with ([params_log scanPath p images isDebug] ++ vtr ++ ptr).
    rewrite !called_app, Hmk.
    destruct Hpipe; try reflexivity.
    rewrite !called_app.
    match goal with
    | Hc : Simple.cleanup ?o ?out ?w5 = (_, _, ?ctr) |- _ =>
        pose proof (simple_cleanup_events o out w5) as Hcl;
        rewrite Hc in Hcl; unfold trace in Hcl; cbn [snd] in Hcl;
        rewrite (Hcm ctr Hcl)
    end.
    destruct ce; reflexivity.
Qed.

(** X18. In the current revision the results subdirectory is handed to
    [DeleteDirectory] in every run where the four collaborator calls
    succeeded on a valid folder, also when the deletion of the extractor's
    output directory failed or was skipped. *)
Theorem results_directory_always_cleaned (scanPath p : string) (images : list string)
    (isDebug : bool) (w : W) :
  all_four_succeeded (trace (Current.Resolve scanPath p images isDebug w)) = true ->
  In (EvIsValidFolderPath p true None)
     (trace (Current.Resolve scanPath p images isDebug w)) ->
  checkmarxPath_current p <> "" ->
  exists e,
    In (EvDeleteDirectory (checkmarxPath_current p) e)
       (trace (Current.Resolve scanPath p images isDebug w)).
Proof.
  unfold all_four_succeeded.
  current_cases scanPath p images isDebug w; intros Hfour Hvalid Hcx.
  all: try (revert Hfour; trace_calls; discriminate).
  assert (cx = checkmarxPath_current p) as ->.
  { destruct Hinv as [(_ & _ & Hno)|(Hcx' & _)]; [|exact Hcx'].
    exfalso. in_trace Hvalid; exact (Hno None Hvalid). }
  match goal with Hc : Current.cleanup _ ?o _ ?w5 = _ |- _ =>
    destruct (current_cleanup_results_dir p o (checkmarxPath_current p) w5 Hcx)
      as (e & Hdel & _);
    rewrite Hc in Hdel end.
  unfold trace in Hdel. cbn [snd] in Hdel.
  exists e. apply in_or_app. right. apply in_or_app. right.
  apply in_or_app. right. apply in_or_app. left. exact Hdel.
Qed.
End SimpleAndCurrentCleanup.

(** ** The further properties on concrete worlds *)

Section MoreOnTheMock.
#[local] Existing Instance Mock.types.
#[local] Existing Instance Mock.host.
#[local] Existing Instance Mock.imagesExtractor.
#[local] Existing Instance Mock.syftPackagesExtractor.

Lemma merge_error_aborts_witness :
  In (EvExtractAndMergeImagesFromFiles Mock.sampleFileImages Mock.images
        Mock.sampleSettings (Some "bad image reference"))
     (trace (Mock.run PreviousRevision Mock.resolutionFolderPath MockMerge.merge_fails))
  /\ (result (Mock.run PreviousRevision Mock.resolutionFolderPath MockMerge.merge_fails)
      = Some "bad image reference"
      /\ called_ok is_ExtractFiles
           (trace (Mock.run PreviousRevision Mock.resolutionFolderPath
                     MockMerge.merge_fails)) = true
      /\ called is_Analyze
           (trace (Mock.run PreviousRevision Mock.resolutionFolderPath
                     MockMerge.merge_fails)) = false
      /\ called is_Save
           (trace (Mock.run PreviousRevision Mock.resolutionFolderPath
                     MockMerge.merge_fails)) = false
      /\ called is_Delete
           (trace (Mock.run PreviousRevision Mock.resolutionFolderPath
                     MockMerge.merge_fails)) = false).
Proof.
  split; [in_closed_trace|].
  apply (merge_error_aborts (W:=Mock.World) PreviousRevision Mock.scanPath
           Mock.resolutionFolderPath Mock.images false MockMerge.merge_fails
           Mock.sampleFileImages Mock.images Mock.sampleSettings "bad image reference").
  in_closed_trace.
Defined.

Lemma validation_error_aborts_witness :
  In (EvMkdirAll Mock.checkmarxPath 493
        (Some ("mkdir " ++ Mock.checkmarxPath ++ ": permission denied")%string))
     (trace (Mock.run CurrentRevision Mock.resolutionFolderPath MockMerge.mkdir_fails))
  /\ (result (Mock.run CurrentRevision Mock.resolutionFolderPath MockMerge.mkdir_fails)
      = Some ("mkdir " ++ Mock.checkmarxPath ++ ": permission denied")%string
      /\ called is_collaborator_call
           (trace (Mock.run CurrentRevision Mock.resolutionFolderPath
                     MockMerge.mkdir_fails)) = false
      /\ called is_Delete
           (trace (Mock.run CurrentRevision Mock.resolutionFolderPath
                     MockMerge.mkdir_fails)) = false
      /\ called is_ExecRun
           (trace (Mock.run CurrentRevision Mock.resolutionFolderPath
                     MockMerge.mkdir_fails)) = false).
Proof.
  split; [in_closed_trace|].
  apply (validation_error_aborts (W:=Mock.World) CurrentRevision Mock.scanPath
           Mock.resolutionFolderPath Mock.images false MockMerge.mkdir_fails
           (EvMkdirAll Mock.checkmarxPath 493
              (Some ("mkdir " ++ Mock.checkmarxPath ++ ": permission denied")%string))).
  - in_closed_trace.
  - reflexivity.
  - reflexivity.
Defined.

Lemma returned_error_comes_from_a_call_witness :
  result (Mock.run SimpleRevision Mock.resolutionFolderPath Mock.save_fails)
  = Some "disk full"
  /\ exists ev,
      In ev (trace (Mock.run SimpleRevision Mock.resolutionFolderPath Mock.save_fails))
      /\ returned_error ev = Some "disk full"
      /\ is_logger_event ev = false
      /\ is_ExecRun ev = false.
Proof.
  split; [reflexivity|].
  apply (returned_error_comes_from_a_call (W:=Mock.World) SimpleRevision Mock.scanPath
           Mock.resolutionFolderPath Mock.images false Mock.save_fails "disk full").
  reflexivity.
Defined.

Lemma one_analyzer_method_witness :
  In (EvAnalyzeImagesWithPlatform Mock.mergedImages "linux/amd64" None)
     (trace (Mock.run CurrentRevision Mock.resolutionFolderPath Mock.success))
  /\ is_Analyze (EvAnalyzeImagesWithPlatform Mock.mergedImages "linux/amd64" None) = true
  /\ exists imgs e,
      EvAnalyzeImagesWithPlatform Mock.mergedImages "linux/amd64" None
      = EvAnalyzeImagesWithPlatform imgs "linux/amd64" e.
Proof.
  split; [in_closed_trace|]. split; [reflexivity|].
  apply (one_analyzer_method (W:=Mock.World) CurrentRevision Mock.scanPath
           Mock.resolutionFolderPath Mock.images false Mock.success
           (EvAnalyzeImagesWithPlatform Mock.mergedImages "linux/amd64" None)).
  - in_closed_trace.
  - reflexivity.
Defined.

Lemma earlier_revisions_return_cleanup_failures_witness :
  PreviousRevision <> CurrentRevision
  /\ In (EvDeleteDirectory Mock.checkmarxPath
           (Some ("unlinkat " ++ Mock.checkmarxPath ++ ": permission denied")%string))
        (trace (Mock.run PreviousRevision Mock.resolutionFolderPath Mock.results_locked))
  /\ result (Mock.run PreviousRevision Mock.resolutionFolderPath Mock.results_locked)
     <> None.
Proof.
  split; [discriminate|]. split; [in_closed_trace|].
  apply (earlier_revisions_return_cleanup_failures (W:=Mock.World) PreviousRevision
           Mock.scanPath Mock.resolutionFolderPath Mock.images false Mock.results_locked
           Mock.checkmarxPath
           ("unlinkat " ++ Mock.checkmarxPath ++ ": permission denied")%string).
  - discriminate.
  - in_closed_trace.
Defined.

Lemma earlier_revisions_skip_cleanup_in_place_witness :
  PreviousRevision <> CurrentRevision
  /\ In (EvExtractFiles Mock.scanPath Mock.resolutionFolderPath None)
        (trace (Mock.run PreviousRevision Mock.resolutionFolderPath MockMerge.in_place))
  /\ deletes_output Mock.resolutionFolderPath Mock.resolutionFolderPath = false
  /\ called is_Delete
       (trace (Mock.run PreviousRevision Mock.resolutionFolderPath MockMerge.in_place))
     = false.
Proof.
  split; [discriminate|]. split; [in_closed_trace|]. split; [reflexivity|].
  apply (earlier_revisions_skip_cleanup_in_place (W:=Mock.World) PreviousRevision
           Mock.scanPath Mock.resolutionFolderPath Mock.images false MockMerge.in_place
           Mock.scanPath Mock.resolutionFolderPath None).
  - discriminate.
  - in_closed_trace.
  - reflexivity.
Defined.

Lemma no_command_off_windows_witness :
  (GOOS (Host:=Mock.host) <> "windows" \/ CurrentRevision <> CurrentRevision)
  /\ called is_ExecRun
       (trace (Mock.run CurrentRevision Mock.resolutionFolderPath Mock.success)) = false.
Proof.
  assert (GOOS (Host:=Mock.host) <> "windows" \/ CurrentRevision <> CurrentRevision)
    as Hos by (left; apply String.eqb_neq; reflexivity).
  split; [exact Hos|].
  apply (no_command_off_windows (W:=Mock.World) CurrentRevision Mock.scanPath
           Mock.resolutionFolderPath Mock.images false Mock.success Hos).
Defined.

Lemma steps_feed_each_other_witness :
  In (EvSaveObjectToFile Mock.checkmarxPath Mock.expectedResolution None)
     (trace (Mock.run CurrentRevision Mock.resolutionFolderPath Mock.success))
  /\ exists files settings out w2 merged w3 w4,
      ExtractFiles Mock.scanPath
        (world_after (Mock.validate Mock.resolutionFolderPath Mock.success))
      = (files, settings, out, None, w2)
      /\ ExtractAndMergeImagesFromFiles files (ToImageModels Mock.images) settings w2
         = (merged, None, w3)
      /\ AnalyzeImagesWithPlatform merged "linux/amd64" w3
         = (Mock.expectedResolution, None, w4)
      /\ fst (SaveObjectToFile Mock.checkmarxPath Mock.expectedResolution w4) = None.
Proof.
  split; [in_closed_trace|].
  apply (steps_feed_each_other (W:=Mock.World) Mock.scanPath Mock.resolutionFolderPath
           Mock.images false Mock.success Mock.checkmarxPath Mock.expectedResolution None).
  in_closed_trace.
Defined.

Lemma deletion_only_after_success_witness :
  called is_Delete
    (trace (Mock.run SimpleRevision Mock.resolutionFolderPath Mock.success)) = true
  /\ all_four_succeeded
       (trace (Mock.run SimpleRevision Mock.resolutionFolderPath Mock.success)) = true.
Proof.
  split; [reflexivity|].
  apply (deletion_only_after_success (W:=Mock.World) SimpleRevision Mock.scanPath
           Mock.resolutionFolderPath Mock.images false Mock.success).
  reflexivity.
Defined.

(** The output directory cannot be deleted: the results subdirectory is still
    handed to [DeleteDirectory]. *)
Lemma results_directory_always_cleaned_witness :
  all_four_succeeded
    (trace (Mock.run CurrentRevision Mock.resolutionFolderPath Mock.output_locked)) = true
  /\ In (EvIsValidFolderPath Mock.resolutionFolderPath true None)
        (trace (Mock.run CurrentRevision Mock.resolutionFolderPath Mock.output_locked))
  /\ checkmarxPath_current (Host0:=Mock.host) Mock.resolutionFolderPath <> ""
  /\ exists e,
      In (EvDeleteDirectory
            (checkmarxPath_current (Host0:=Mock.host) Mock.resolutionFolderPath) e)
         (trace (Mock.run CurrentRevision Mock.resolutionFolderPath Mock.output_locked)).
Proof.
  split; [reflexivity|]. split; [in_closed_trace|].
  split; [apply String.eqb_neq; reflexivity|].
  apply (results_directory_always_cleaned (W:=Mock.World) Mock.scanPath
           Mock.resolutionFolderPath Mock.images false Mock.output_locked).
  - reflexivity.
  - in_closed_trace.
  - apply String.eqb_neq; reflexivity.
Defined.

Lemma current_Resolve_spares_resolution_folder_witness :
  checkmarxPath_current (Host0:=Mock.host) Mock.resolutionFolderPath
  <> Mock.resolutionFolderPath
  /\ ~ In (EvDeleteDirectory Mock.resolutionFolderPath None)
         (trace (Mock.run CurrentRevision Mock.resolutionFolderPath Mock.success)).
Proof.
  assert (checkmarxPath_current (Host0:=Mock.host) Mock.resolutionFolderPath
          <> Mock.resolutionFolderPath) as Hne by (apply String.eqb_neq; reflexivity).
  split; [exact Hne|].
  apply (current_Resolve_spares_resolution_folder (W:=Mock.World) Mock.scanPath
           Mock.resolutionFolderPath Mock.images false Mock.success None Hne).
Defined.
End MoreOnTheMock.

Section OnWindows.
#[local] Existing Instance Mock.types.
#[local] Existing Instance Mock.imagesExtractor.
#[local] Existing Instance Mock.syftPackagesExtractor.

(** [attrib] fails on this host. *)
Lemma hide_failure_is_not_fatal_witness :
  GOOS (Host:=MockWindows.host true) = "windows"
  /\ result (Current.validate (Host0:=MockWindows.host true)
               MockWindows.resolutionFolderPath MockWindows.world)
     = (checkmarxPath_current (Host0:=MockWindows.host true)
          MockWindows.resolutionFolderPath, None)
  /\ In (EvLog WarnLevel (Some "exit status 1")
           "Could not hide .checkmarx folder on Windows" [])
        (trace (Current.validate (Host0:=MockWindows.host true)
                  MockWindows.resolutionFolderPath MockWindows.world))
  /\ called is_ExtractFiles
       (trace (Current.Resolve (Host0:=MockWindows.host true) Mock.scanPath
                 MockWindows.resolutionFolderPath Mock.images false MockWindows.world))
     = true.
Proof.
  split; [reflexivity|].
  assert (IsValidFolderPath (Host:=MockWindows.host true)
            MockWindows.resolutionFolderPath MockWindows.world
          = (true, None, MockWindows.world)) as Hvalid by reflexivity.
  destruct (hide_failure_is_not_fatal (Host0:=MockWindows.host true) Mock.scanPath
              MockWindows.resolutionFolderPath Mock.images false MockWindows.world
              MockWindows.world
              (snd (os_MkdirAll (Host:=MockWindows.host true)
                      (checkmarxPath_current (Host0:=MockWindows.host true)
                         MockWindows.resolutionFolderPath) 493 MockWindows.world))
              eq_refl Hvalid eq_refl) as (Hres & _ & _ & Hwarn & Hgoes_on).
  split; [exact Hres|]. split; [|exact Hgoes_on].
  apply Hwarn. reflexivity.
Defined.
End OnWindows.
